(** * LightWebComponent: the render pipeline host

    A shallow embedding of [base-component/light-web-component.ts]: the
    class that owns a widget's shadow root, intercepts writes to the
    widget's observed properties and sequences the optional
    [preRender] / [render] / [postRender] hooks.

    The class is stateful JavaScript.  Its private fields, the own
    properties of the host element and the shadow root's markup are
    gathered in one record, [state]; every method is a function from
    [state] to an [outcome] that either completes or throws.  What the
    class reports to the outside (calls to [console.error], the start of
    a pipeline pass, each step it invokes) is appended to a history kept
    in the state, so that "renders once", "logs" and "runs no step" are
    statements about that history. *)

From Stdlib Require Import Ascii.
From stdpp Require Import gmap strings list pretty sorting.

Set Warnings "-clear-no-such-hyp".

Open Scope string_scope.
Open Scope list_scope.

(** ** JavaScript values and exceptions *)

(** The values a host field can hold ([unknown] in the source). *)
Inductive value : Type :=
  | VUndefined
  | VNull
  | VBool (b : bool)
  | VNum (n : Z)
  | VStr (s : string).

(** What a [throw] carries: the engine's [TypeError] (a failed property
    write) or whatever user code raised. *)
Inductive exn : Type :=
  | TypeError
  | HostError (msg : string).

#[global] Instance value_eq_dec : EqDecision value.
Proof. solve_decision. Defined.

#[global] Instance exn_eq_dec : EqDecision exn.
Proof. solve_decision. Defined.

(** ** Own properties of the host element *)

(** An own property of [el], as [Object.getOwnPropertyDescriptor] shows it.
    [InterceptedProp] is the accessor that [watchForFieldChanges] installs
    ([get] reads the intercepted-property store, [set] goes through
    [setInterceptedProperty]; configurable and enumerable, no [writable]
    attribute).  [AccessorProp] is any other accessor. *)
Inductive prop : Type :=
  | DataProp (v : value) (writable enumerable configurable : bool)
  | InterceptedProp
  | AccessorProp (enumerable configurable : bool).

#[global] Instance prop_eq_dec : EqDecision prop.
Proof. solve_decision. Defined.

(** ** The pipeline's history *)

(** The closures pushed on [customRenderPipeline] by the constructor. *)
Inductive step : Type :=
  | StepPreRender
  | StepRender
  | StepDefault
  | StepPostRender.

#[global] Instance step_eq_dec : EqDecision step.
Proof. solve_decision. Defined.

Inductive event : Type :=
  | ConsoleError (msg : string) (detail : option exn)
  | PipelineRun
  | StepCall (st : step).

#[global] Instance event_eq_dec : EqDecision event.
Proof. solve_decision. Defined.

Definition msg_not_configured : string :=
  "Template or styles not configured - please run configureTemplate first".

Definition msg_template_error : string := "Error evaluating template:".

(** ** State *)

Record state : Type := mkState {
  renderPipelineEnabled : bool;
  rawTemplate : option string;
  rawStyles : option string;
  shadowProperties : gmap string value;
  (** own properties of the host element [el] *)
  el_props : gmap string prop;
  (** [Object.isExtensible(el)] *)
  el_extensible : bool;
  (** [shadow.innerHTML] *)
  innerHTML : string;
  (** what the component has logged, started and called so far *)
  history : list event
}.

Inductive outcome : Type :=
  | Normal (s : state)
  | Throw (e : exn) (s : state).

Definition final (o : outcome) : state :=
  match o with Normal s => s | Throw _ s => s end.

Definition bind (o : outcome) (k : state -> outcome) : outcome :=
  match o with
  | Normal s => k s
  | Throw e s => Throw e s
  end.

(** ** The host *)

(** The part of the state that code supplied by the widget may write: the
    element's own properties and the markup inside the shadow root.  Hooks
    and setters read the whole state (a template or a hook reads watched
    fields through the store), and return what they leave behind.  Code
    that calls back into the component from inside a hook or a setter is
    not covered. *)
Record host_view : Type := mkView {
  hv_props : gmap string prop;
  hv_extensible : bool;
  hv_innerHTML : string
}.

Inductive host_result : Type :=
  | HReturn (v : host_view)
  | HThrow (e : exn) (v : host_view).

Definition hook : Type := state -> host_result.

(** What the component consumes from the widget and from the JavaScript
    engine.  [observedAttributes] is the static list on the element's
    constructor; the three hooks are found by name on the element;
    [user_getter] and [user_setter] give the accessor reached by a read or
    write of a name that is not intercepted (an own accessor, or one
    inherited through the prototype chain); [template_literal] is the
    engine evaluating the text as the body of a template literal with
    [this] bound to the element, whose fields it reads through the function
    it is given ([inr] when construction or evaluation throws). *)
Record host : Type := mkHost {
  observedAttributes : option (list string);
  preRender : option hook;
  render : option hook;
  postRender : option hook;
  user_getter : string -> option (state -> value);
  user_setter : string -> option (value -> hook);
  template_literal : string -> (string -> value) -> string + exn
}.

Record component : Type := mkComponent {
  el : host;
  customRenderPipeline : list step
}.

(** ** State updates *)

Definition set_enabled (b : bool) (s : state) : state :=
  mkState b (rawTemplate s) (rawStyles s) (shadowProperties s)
          (el_props s) (el_extensible s) (innerHTML s) (history s).

Definition set_raw (t st : option string) (s : state) : state :=
  mkState (renderPipelineEnabled s) t st (shadowProperties s)
          (el_props s) (el_extensible s) (innerHTML s) (history s).

Definition set_shadowProperties (m : gmap string value) (s : state) : state :=
  mkState (renderPipelineEnabled s) (rawTemplate s) (rawStyles s) m
          (el_props s) (el_extensible s) (innerHTML s) (history s).

Definition set_el_props (p : gmap string prop) (s : state) : state :=
  mkState (renderPipelineEnabled s) (rawTemplate s) (rawStyles s)
          (shadowProperties s) p (el_extensible s) (innerHTML s) (history s).

Definition set_innerHTML (h : string) (s : state) : state :=
  mkState (renderPipelineEnabled s) (rawTemplate s) (rawStyles s)
          (shadowProperties s) (el_props s) (el_extensible s) h (history s).

Definition emit (e : event) (s : state) : state :=
  mkState (renderPipelineEnabled s) (rawTemplate s) (rawStyles s)
          (shadowProperties s) (el_props s) (el_extensible s) (innerHTML s)
          (history s ++ [e]).

Definition set_view (v : host_view) (s : state) : state :=
  mkState (renderPipelineEnabled s) (rawTemplate s) (rawStyles s)
          (shadowProperties s) (hv_props v) (hv_extensible v)
          (hv_innerHTML v) (history s).

(** Running widget code in state [s]. *)
Definition call_host (f : hook) (s : state) : outcome :=
  match f s with
  | HReturn v => Normal (set_view v s)
  | HThrow e v => Throw e (set_view v s)
  end.

(** ** Truthiness *)

(** [!!x] for a [string | null]: [null] and the empty string are falsy. *)
Definition truthy (o : option string) : bool :=
  match o with
  | Some s => negb (String.eqb s "")
  | None => false
  end.

(** [x || null]. *)
Definition or_null (o : option string) : option string :=
  if truthy o then o else None.

(** [x || '']. *)
Definition or_empty (o : option string) : string :=
  match o with
  | Some s => s
  | None => ""
  end.

(** ** Reading a field of the element *)

(** [this.shadowProperties[name]]. *)
Definition getInterceptedProperty (name : string) (s : state) : value :=
  default VUndefined (shadowProperties s !! name).

(** [el[name]]. *)
Definition el_get (c : component) (s : state) (name : string) : value :=
  match el_props s !! name with
  | Some (DataProp v _ _ _) => v
  | Some InterceptedProp => getInterceptedProperty name s
  | Some (AccessorProp _ _) | None =>
      match user_getter (el c) name with
      | Some g => g s
      | None => VUndefined
      end
  end.

(** ** The default render step *)

(** The text spliced into [new Function(...)]: a [null] template is
    interpolated as the text "null". *)
Definition template_text (s : state) : string :=
  match rawTemplate s with
  | Some t => t
  | None => "null"
  end.

(** [evaluateTemplate]: the interpolated template, or the empty string and
    a logged error when evaluation throws. *)
Definition evaluateTemplate (c : component) (s : state) : string * state :=
  match template_literal (el c) (template_text s) (el_get c s) with
  | inl text => (text, s)
  | inr e => ("", emit (ConsoleError msg_template_error (Some e)) s)
  end.

Definition evaluateStyles (s : state) : option string := rawStyles s.

Definition renderTemplate (template : string) (styles : option string)
    (s : state) : state :=
  set_innerHTML ("<style>" +:+ or_empty styles +:+ "</style>" +:+ template) s.

Definition defaultRenderPipeline (c : component) (s : state) : state :=
  let '(renderedTemplate, s1) := evaluateTemplate c s in
  let renderedStyles := evaluateStyles s1 in
  renderTemplate renderedTemplate renderedStyles s1.

(** ** The pipeline *)

(** Calling [tmp.hook.call(this.el)]; a hook that has disappeared since
    construction makes the call a [TypeError]. *)
Definition call_hook (h : option hook) (s : state) : outcome :=
  match h with
  | Some f => call_host f s
  | None => Throw TypeError s
  end.

Definition run_step (c : component) (st : step) (s : state) : outcome :=
  let s := emit (StepCall st) s in
  match st with
  | StepPreRender => call_hook (preRender (el c)) s
  | StepRender => call_hook (render (el c)) s
  | StepDefault => Normal (defaultRenderPipeline c s)
  | StepPostRender => call_hook (postRender (el c)) s
  end.

(** [steps.forEach((step) => step())]: in order, stopping at the first
    step that throws. *)
Fixpoint run_steps (c : component) (steps : list step) (s : state) : outcome :=
  match steps with
  | [] => Normal s
  | st :: rest => bind (run_step c st s) (run_steps c rest)
  end.

Definition configured (s : state) : bool :=
  truthy (rawTemplate s) && truthy (rawStyles s).

Definition runRenderPipeline (c : component) (s : state) : outcome :=
  if negb (renderPipelineEnabled s) then Normal s
  else if negb (truthy (rawTemplate s)) || negb (truthy (rawStyles s)) then
    Normal (emit (ConsoleError msg_not_configured None) s)
  else run_steps c (customRenderPipeline c) (emit PipelineRun s).

Definition pauseRenderPipeline (s : state) : state := set_enabled false s.

Definition resumeRenderPipeline (s : state) : state := set_enabled true s.

(** ** Writing a field of the element *)

Definition setInterceptedProperty (c : component) (name : string) (v : value)
    (s : state) : outcome :=
  runRenderPipeline c
    (set_shadowProperties (<[name := v]> (shadowProperties s)) s).

(** Calling the accessor found for [name], if it has a setter. *)
Definition call_setter (c : component) (name : string) (v : value)
    (s : state) : option outcome :=
  match user_setter (el c) name with
  | Some f => Some (call_host (f v) s)
  | None => None
  end.

(** [el[name] = v] as [Object.assign] performs it: a write that the engine
    rejects is a [TypeError]. *)
Definition el_set (c : component) (name : string) (v : value)
    (s : state) : outcome :=
  match el_props s !! name with
  | Some (DataProp _ w e cf) =>
      if w then Normal (set_el_props (<[name := DataProp v w e cf]> (el_props s)) s)
      else Throw TypeError s
  | Some InterceptedProp => setInterceptedProperty c name v s
  | Some (AccessorProp _ _) =>
      match call_setter c name v s with
      | Some o => o
      | None => Throw TypeError s
      end
  | None =>
      match call_setter c name v s with
      | Some o => o
      | None =>
          if el_extensible s then
            Normal (set_el_props (<[name := DataProp v true true true]> (el_props s)) s)
          else Throw TypeError s
      end
  end.

(** [Object.assign(this.el, properties)]: the patch's keys in order. *)
Fixpoint assign (c : component) (properties : list (string * value))
    (s : state) : outcome :=
  match properties with
  | [] => Normal s
  | (name, v) :: rest => bind (el_set c name v s) (assign c rest)
  end.

(** [try { Object.assign(...) } finally { resume }] and then one render. *)
Definition updateProperties (c : component)
    (properties : list (string * value)) (s : state) : outcome :=
  match assign c properties (pauseRenderPipeline s) with
  | Normal s1 => runRenderPipeline c (resumeRenderPipeline s1)
  | Throw e s1 => Throw e (resumeRenderPipeline s1)
  end.

(** ** Property interception *)

(** [descriptor?.configurable && descriptor?.writable && descriptor?.enumerable]. *)
Definition interceptable (d : option prop) : bool :=
  match d with
  | Some (DataProp _ w e cf) => cf && w && e
  | Some InterceptedProp | Some (AccessorProp _ _) | None => false
  end.

(** The body of the loop over [observedAttributes]. *)
Definition intercept (s : state) (attr : string) : state :=
  match el_props s !! attr with
  | Some (DataProp v w e cf) =>
      if cf && w && e then
        set_el_props (<[attr := InterceptedProp]> (el_props s))
          (set_shadowProperties (<[attr := v]> (shadowProperties s)) s)
      else s
  | _ => s
  end.

Definition watchForFieldChanges (c : component) (s : state) : state :=
  match observedAttributes (el c) with
  | Some attrs => foldl intercept s attrs
  | None => s
  end.

(** ** Configuration and construction *)

(** The optional [settings] argument; [None] is a key left out. *)
Record settings : Type := mkSettings {
  opt_watchForFieldChanges : option bool;
  opt_immediateRender : option bool
}.

Definition no_settings : settings := mkSettings None None.

Definition configureTemplate (c : component) (template styles : string)
    (cfg : settings) (s : state) : outcome :=
  let s1 := set_raw (Some template) (Some styles) s in
  let s2 := if default true (opt_watchForFieldChanges cfg)
            then watchForFieldChanges c s1 else s1 in
  if default true (opt_immediateRender cfg)
  then runRenderPipeline c s2 else Normal s2.

Definition opt_step (st : step) (h : option hook) : list step :=
  match h with
  | Some _ => [st]
  | None => []
  end.

Definition render_step (h : option hook) : step :=
  match h with
  | Some _ => StepRender
  | None => StepDefault
  end.

(** [new LightWebComponent(el, template, styles)] on an element with own
    properties [props]: a fresh, empty shadow root, an empty store, the
    pipeline enabled, and the step sequence read off the hooks. *)
Definition constructor (h : host) (props : gmap string prop) (extensible : bool)
    (template styles : option string) : component * state :=
  (mkComponent h
     (opt_step StepPreRender (preRender h)
      ++ [render_step (render h)]
      ++ opt_step StepPostRender (postRender h)),
   mkState true (or_null template) (or_null styles) ∅ props extensible "" []).

(** ** What the history records *)

(** Pipeline passes started so far (line [forEach] reached). *)
Definition runs (s : state) : nat :=
  count_occ event_eq_dec (history s) PipelineRun.

(** The steps invoked so far, in order. *)
Definition calls (l : list event) : list step :=
  omap (fun e => match e with StepCall st => Some st | _ => None end) l.

(** The errors logged so far, in order. *)
Definition errors (l : list event) : list string :=
  omap (fun e => match e with ConsoleError m _ => Some m | _ => None end) l.

(** ** A sample widget: the greeting element

    [hello-world.ts] declares [observedAttributes = ['name']], a public
    field [name = 'World'] and no hook.  For the engine, a reader of
    template literals that understands [${this.field}] and throws on any
    other expression is enough to run the examples. *)
Module Sample.

(** [String(v)]. *)
Definition to_string (v : value) : string :=
  match v with
  | VUndefined => "undefined"
  | VNull => "null"
  | VBool true => "true"
  | VBool false => "false"
  | VNum n => pretty n
  | VStr s => s
  end.

Definition this_prefix : string := "this.".

(** The expression between [${] and [}]. *)
Definition eval_expr (this : string -> value) (e : string) : string + exn :=
  if String.prefix this_prefix e
  then inl (to_string (this (String.substring 5 (String.length e - 5) e)))
  else inr (HostError ("ReferenceError: " +:+ e)).

Inductive mode : Type :=
  | Text
  | Dollar
  | Expr (acc : string).

Fixpoint scan (this : string -> value) (m : mode) (out : string)
    (t : string) : string + exn :=
  match t with
  | EmptyString =>
      match m with
      | Text => inl out
      | Dollar => inl (out +:+ "$")
      | Expr _ => inr (HostError "SyntaxError: unterminated template")
      end
  | String a rest =>
      let ch := String a EmptyString in
      match m with
      | Text =>
          if String.eqb ch "$" then scan this Dollar out rest
          else scan this Text (out +:+ ch) rest
      | Dollar =>
          if String.eqb ch "{" then scan this (Expr "") out rest
          else if String.eqb ch "$" then scan this Dollar (out +:+ "$") rest
          else scan this Text (out +:+ "$" +:+ ch) rest
      | Expr acc =>
          if String.eqb ch "}" then
            match eval_expr this acc with
            | inl v => scan this Text (out +:+ v) rest
            | inr e => inr e
            end
          else scan this (Expr (acc +:+ ch)) out rest
      end
  end.

Definition interpolate (t : string) (this : string -> value) : string + exn :=
  scan this Text "" t.

(** A class field: an own data property, writable, enumerable and
    configurable. *)
Definition plain (v : value) : prop := DataProp v true true true.

Definition hello_world : host :=
  mkHost (Some ["name"]) None None None
         (fun _ => None) (fun _ => None) interpolate.

Definition hello_props : gmap string prop :=
  {[ "name" := plain (VStr "World") ]}.

Definition hello_template : string := "Hello, ${this.name}!".
Definition hello_styles : string := "span{color:red}".

Definition view_of (s : state) : host_view :=
  mkView (el_props s) (el_extensible s) (innerHTML s).

(** A chart in the manner of [donut-chart.ts]: [preRender] derives a
    field from the data, [postRender] draws into the rendered markup,
    there is no [render] hook, and [shadow] is a getter without a setter,
    so that assigning it is a [TypeError]. *)
Definition derive : hook := fun s =>
  HReturn (mkView (<["totalAmount" := plain (VNum 0)]> (el_props s))
                  (el_extensible s) (innerHTML s)).

Definition draw : hook := fun s => HReturn (view_of s).

Definition refuse : value -> hook := fun _ s => HThrow TypeError (view_of s).

Definition getter_only (name : string) : option (value -> hook) :=
  if String.eqb name "shadow" then Some refuse else None.

Definition donut : host :=
  mkHost (Some ["items"; "width"; "height"; "border-color"])
         (Some derive) None (Some draw)
         (fun _ => None) getter_only interpolate.

Definition donut_props : gmap string prop :=
  {[ "items" := plain (VStr "[]"); "width" := plain (VNum 400);
     "height" := plain (VNum 400) ]}.

Definition donut_template : string := "<canvas></canvas>".
Definition donut_styles : string := ":host{display:block}".



(** A widget whose template refers to a variable that does not exist. *)
Definition broken_template : string := "Hello, ${nobody}!".

End Sample.

(** ** The sample widgets, run *)

Module Runs.
Import Sample.

(** The greeting element after [connectedCallback]. *)
Definition hello_c : component :=
  (constructor hello_world hello_props true None None).1.
Definition hello_new : state :=
  (constructor hello_world hello_props true None None).2.
Definition hello_ready : state :=
  final (configureTemplate hello_c hello_template hello_styles no_settings hello_new).

(** The chart, just constructed, after interception only, and after
    [connectedCallback]. *)
Definition donut_c : component :=
  (constructor donut donut_props true None None).1.
Definition donut_new : state :=
  (constructor donut donut_props true None None).2.
Definition donut_watched : state := watchForFieldChanges donut_c donut_new.
Definition donut_ready : state :=
  final (configureTemplate donut_c donut_template donut_styles no_settings donut_new).


End Runs.
Import Sample Runs.

(** The store after the pairs of a patch have been written in order. *)
Definition store_patch (m : gmap string value)
    (properties : list (string * value)) : gmap string value :=
  foldl (fun m kv => <[kv.1 := kv.2]> m) m properties.

(** * The widgets built on the component *)

(** ** The timeline chart ([timeline-chart.ts])

    Dates are held by their time value, the integer number of milliseconds
    that [getTime()] and unary [+] return; a [date] given as a string stands
    for the time value it parses to.  Invalid dates (time value [NaN]) are
    not covered.  Time values are at most 8.64e15 in magnitude, so their
    difference is below 2^54; the subtraction and the division of the
    source are those of doubles, and their rounding is written out. *)
Module Timeline.

Record TimelineStatus : Type := mkStatus {
  label : string;
  date : Z;
  daysTillNext : option Z
}.

(** [TimelineStatus & { dateObj: Date }]. *)
Record node : Type := mkNode {
  status : TimelineStatus;
  dateObj : Z
}.

Definition ms_per_day : Z := 1000 * 60 * 60 * 24.

(** The double nearest to an integer below 2^54 in magnitude: the integer
    itself up to 2^53; beyond, doubles are the even integers, and an odd
    integer, half-way between two of them, goes to the one whose half is
    even. *)
Definition to_double (n : Z) : Z :=
  if (Z.abs n <=? 2 ^ 53)%Z then n
  else if Z.even n then n
  else if ((n - 1) mod 4 =? 0)%Z then (n - 1)%Z
  else (n + 1)%Z.

(** [Math.ceil(x / b)] for a double [x >= 0] and [b = 86400000], the
    quotient being the double nearest to [x / b].  With [k] the integer
    part and [r] the remainder, an exact quotient is [k]; otherwise the
    double quotient lies above [k], and its ceiling is [k + 1], unless it
    rounds down to [k] itself, which it does when [r / b] is at most half
    the gap [2 ^ (log2 k - 52)] between [k] and the next double. *)
Definition ceil_quotient (x b : Z) : Z :=
  let k := (x / b)%Z in
  let r := (x mod b)%Z in
  if (r =? 0)%Z then k
  else if (k =? 0)%Z then 1%Z
  else if (r * 2 ^ (53 - Z.log2 k) <=? b)%Z then k
  else (k + 1)%Z.

Definition calculateDaysBetween (date1 date2 : Z) : Z :=
  let diffTime := Z.abs (to_double (date2 - date1)) in
  ceil_quotient diffTime ms_per_day.

(** [{ ...n, dateObj: ... }]. *)
Definition to_node (n : TimelineStatus) : node := mkNode n (date n).

(** [Array.prototype.sort] with the comparator [+a.dateObj - +b.dateObj]:
    the sort is stable, so its result is the one of insertion from the
    right, a node going before the nodes of the same date that follow it. *)
Fixpoint insert_node (n : node) (sorted : list node) : list node :=
  match sorted with
  | [] => [n]
  | m :: rest =>
      if (dateObj n <=? dateObj m)%Z then n :: sorted
      else m :: insert_node n rest
  end.

Definition sort_nodes (l : list node) : list node := foldr insert_node [] l.

(** [(this.items || []).map(...).sort(...)]. *)
Definition prepareDisplayNodes (items : option (list TimelineStatus)) : list node :=
  sort_nodes (to_node <$> default [] items).

(** [row[j].daysTillNext = d]: the rows hold the node objects of
    [displayNodes] themselves, so a row is kept as the list of their
    positions in [displayNodes] and the assignment is made there. *)
Definition with_days (n : node) (d : Z) : node :=
  mkNode (mkStatus (label (status n)) (date (status n)) (Some d)) (dateObj n).

Definition mark (nodes : list node) (ab : nat * nat) : list node :=
  match nodes !! ab.1, nodes !! ab.2 with
  | Some na, Some nb =>
      <[ab.1 := with_days na (calculateDaysBetween (dateObj na) (dateObj nb))]> nodes
  | _, _ => nodes
  end.

(** The inner loop: [j] from [0] to [row.length - 2], on the pairs
    [(row[j], row[j + 1])]. *)
Definition set_days (row : list nat) (nodes : list node) : list node :=
  foldl mark nodes (zip row (tail row)).

(** [displayNodes.slice(i, i + nodesPerRow)], as positions. *)
Definition slice_positions (i nodesPerRow len : nat) : list nat :=
  seq i (Nat.min (i + nodesPerRow) len - i).

(** The outer loop, from its test [i < displayNodes.length]; [None] when
    the iterations allowed are used up before the test fails. *)
Fixpoint wrap_loop (fuel nodesPerRow i : nat) (wrappedRows : list (list nat))
    (nodes : list node) : option (list (list nat) * list node) :=
  if (length nodes <=? i)%nat then Some (wrappedRows, nodes)
  else
    match fuel with
    | O => None
    | S fuel' =>
        let row := slice_positions i nodesPerRow (length nodes) in
        let row := if Nat.odd (length wrappedRows) then reverse row else row in
        wrap_loop fuel' nodesPerRow (i + nodesPerRow) (wrappedRows ++ [row])
          (set_days row nodes)
    end.

(** [Math.max(1, Math.floor(containerWidth / columnWidth))]. *)
Definition columnWidth : Z := 130.

Definition nodesPerRow (containerWidth : Z) : nat :=
  Z.to_nat (Z.max 1 (containerWidth / columnWidth)).

Record chart : Type := mkChart {
  items : option (list TimelineStatus);
  displayNodes : list node;
  wrappedRows : list (list nat)
}.

(** [preRender], given whether the component's shadow root is there and the
    [offsetWidth] of [.timeline-wrapper] when the shadow root holds one. *)
Definition preRender (has_shadow : bool) (container : option Z) (t : chart)
    : option chart :=
  if has_shadow then
    let nodes := prepareDisplayNodes (items t) in
    match container with
    | None => Some (mkChart (items t) nodes (wrappedRows t))
    | Some containerWidth =>
        match wrap_loop (length nodes) (nodesPerRow containerWidth) 0 [] nodes with
        | Some (rows, nodes') => Some (mkChart (items t) nodes' rows)
        | None => None
        end
    end
  else Some t.

(** The rows read back in chronological order: the rows of odd rank were
    reversed. *)
Fixpoint unzigzag (rank : nat) (rows : list (list nat)) : list nat :=
  match rows with
  | [] => []
  | row :: rest =>
      (if Nat.odd rank then reverse row else row) ++ unzigzag (S rank) rest
  end.

End Timeline.

(** ** The donut chart ([donut-chart.ts]): colours

    Strings are sequences of code units below 256 and numbers are integers
    ([NaN] apart, which is [None]): the colours and the darkening
    intensities of the chart are such. *)
Module Donut.

(** The default palette. *)
Definition colors : list string :=
  ["#3498db"; "#f1c40f"; "#e74c3c"; "#2ecc71"; "#9b59b6";
   "#1abc9c"; "#e67e22"; "#34495e"; "#95a5a6"; "#bdc3c7"].

(** [item.color || this.colors[idx % this.colors.length]] in [preRender]. *)
Definition segment_color (color : option string) (idx : nat) : option string :=
  if truthy color then color else colors !! (idx mod length colors).

(** [hex.replace('#', '')]: the first occurrence only. *)
Fixpoint remove_hash (hex : string) : string :=
  match hex with
  | EmptyString => EmptyString
  | String a rest =>
      if Ascii.eqb a "#"%char then rest else String a (remove_hash rest)
  end.

(** [if (c.length === 3) c = c[0] + c[0] + c[1] + c[1] + c[2] + c[2]]. *)
Definition expand (c : string) : string :=
  match c with
  | String x (String y (String z EmptyString)) =>
      String x (String x (String y (String y (String z (String z EmptyString)))))
  | _ => c
  end.

(** White space that [parseInt] skips, among the code units below 256: tab,
    line feed, vertical tab, form feed, carriage return, space and the
    no-break space. *)
Definition is_white (a : Ascii.ascii) : bool :=
  let n := Ascii.nat_of_ascii a in
  ((9 <=? n) && (n <=? 13) || (n =? 32) || (n =? 160))%nat.

Fixpoint trim_start (s : string) : string :=
  match s with
  | EmptyString => EmptyString
  | String a rest => if is_white a then trim_start rest else s
  end.

Definition hex_digit (a : Ascii.ascii) : option Z :=
  let n := Z.of_nat (Ascii.nat_of_ascii a) in
  if ((48 <=? n) && (n <=? 57))%Z then Some (n - 48)%Z
  else if ((97 <=? n) && (n <=? 102))%Z then Some (n - 87)%Z
  else if ((65 <=? n) && (n <=? 70))%Z then Some (n - 55)%Z
  else None.

(** The value of the longest prefix of digits, [None] if there is none. *)
Fixpoint digits_prefix (s : string) (acc : option Z) : option Z :=
  match s with
  | EmptyString => acc
  | String a rest =>
      match hex_digit a with
      | Some d => digits_prefix rest (Some (16 * default 0%Z acc + d)%Z)
      | None => acc
      end
  end.

Definition strip_sign (s : string) : Z * string :=
  match s with
  | String a rest =>
      if Ascii.eqb a "-"%char then ((-1)%Z, rest)
      else if Ascii.eqb a "+"%char then (1%Z, rest)
      else (1%Z, s)
  | EmptyString => (1%Z, s)
  end.

Definition strip_0x (s : string) : string :=
  match s with
  | String a (String b rest) =>
      if Ascii.eqb a "0"%char && (Ascii.eqb b "x"%char || Ascii.eqb b "X"%char) then rest else s
  | _ => s
  end.

(** [parseInt(s, 16)]; [None] is [NaN]. *)
Definition parseInt16 (s : string) : option Z :=
  let '(sign, s1) := strip_sign (trim_start s) in
  match digits_prefix (strip_0x s1) None with
  | Some n => Some (sign * n)%Z
  | None => None
  end.

Definition digit_char (d : Z) : Ascii.ascii :=
  if (d <? 10)%Z then Ascii.ascii_of_nat (Z.to_nat (48 + d))
  else Ascii.ascii_of_nat (Z.to_nat (87 + d)).

Fixpoint hex_digits (fuel : nat) (n : Z) (acc : string) : string :=
  let acc' := String (digit_char (n mod 16)) acc in
  if (n <? 16)%Z then acc'
  else
    match fuel with
    | O => acc'
    | S fuel' => hex_digits fuel' (n / 16) acc'
    end.

(** [n.toString(16)] for an integer or [NaN]. *)
Definition toString16 (x : option Z) : string :=
  match x with
  | None => "NaN"
  | Some n =>
      if (n <? 0)%Z
      then String "-"%char (hex_digits (Z.to_nat (Z.log2 (- n))) (- n) "")
      else hex_digits (Z.to_nat (Z.log2 n)) n ""
  end.

(** [s.padStart(2, '0')]. *)
Definition padStart2 (s : string) : string :=
  match s with
  | EmptyString => "00"
  | String a EmptyString => String "0"%char s
  | _ => s
  end.

(** [c] as the three [parseInt] read it. *)
Definition prepare (hex : string) : string := expand (remove_hash hex).

Definition channel (k : nat) (c : string) : option Z :=
  parseInt16 (String.substring (2 * k) 2 c).

(** [Math.max(0, x - intensity)]; [NaN] stays [NaN]. *)
Definition darken (intensity : Z) (x : option Z) : option Z :=
  match x with
  | Some v => Some (Z.max 0 (v - intensity))
  | None => None
  end.

Definition two_hex (x : option Z) : string := padStart2 (toString16 x).

(** [darkenColor(hex, intensity = 30)]. *)
Definition darkenColor (hex : string) (intensity : option Z) : string :=
  let c := prepare hex in
  let i := default 30%Z intensity in
  let r := darken i (channel 0 c) in
  let g := darken i (channel 1 c) in
  let b := darken i (channel 2 c) in
  "#" +:+ two_hex r +:+ two_hex g +:+ two_hex b.

End Donut.




(** A chart whose [postRender] writes into the rendered markup, as the
    donut chart's [showNoData] and [drawLegend] do. *)
Module Legend.

Definition chart_template : string := "<canvas></canvas><p></p>".
Definition chart_styles : string := ":host{display:block}".

Definition show_no_data : hook := fun s =>
  HReturn (mkView (el_props s) (el_extensible s)
             ("<style>" +:+ or_empty (rawStyles s) +:+ "</style>"
              +:+ "<canvas></canvas><p>Only zero or negative values provided.</p>")).

Definition widget : host :=
  mkHost (Some ["width"]) None None (Some show_no_data)
         (fun _ => None) (fun _ => None) Sample.interpolate.

Definition widget_c : component :=
  (constructor widget Sample.donut_props true
     (Some chart_template) (Some chart_styles)).1.

Definition widget_new : state :=
  (constructor widget Sample.donut_props true
     (Some chart_template) (Some chart_styles)).2.

End Legend.

(** A widget that defines none of the three hooks. *)
Definition no_hooks (h : host) : Prop :=
  preRender h = None /\ render h = None /\ postRender h = None.

(** A widget whose [postRender] throws. *)
Module Faulty.

Definition thrower : hook := fun s =>
  HThrow (HostError "postRender failed")
         (mkView (el_props s) (el_extensible s) (innerHTML s)).

Definition widget : host :=
  mkHost (Some ["name"]) None None (Some thrower)
         (fun _ => None) (fun _ => None) Sample.interpolate.

Definition widget_c : component :=
  (constructor widget Sample.hello_props true
     (Some Sample.hello_template) (Some Sample.hello_styles)).1.

Definition widget_new : state :=
  (constructor widget Sample.hello_props true
     (Some Sample.hello_template) (Some Sample.hello_styles)).2.

End Faulty.

(** What the wrapping never changes in a node. *)
Definition node_key (n : Timeline.node) : string * Z * Z :=
  (Timeline.label (Timeline.status n), Timeline.date (Timeline.status n),
   Timeline.dateObj n).

(** In a row, every node but the last carries the days to the node shown
    after it. *)
Definition days_set (nodes : list Timeline.node) (row : list nat) : Prop :=
  forall j a b, row !! j = Some a -> row !! S j = Some b ->
    exists na nb, nodes !! a = Some na /\ nodes !! b = Some nb
      /\ Timeline.daysTillNext (Timeline.status na)
         = Some (Timeline.calculateDaysBetween (Timeline.dateObj na)
                   (Timeline.dateObj nb)).

(** Chronological order of two nodes. *)
Definition chronological (a b : Timeline.node) : Prop :=
  (Timeline.dateObj a <= Timeline.dateObj b)%Z.

(** ** Notions used in the statements *)

(** The markup the default step produces in state [s]. *)
Definition default_markup (c : component) (s : state) : string :=
  "<style>" +:+ or_empty (rawStyles s) +:+ "</style>" +:+ (evaluateTemplate c s).1.

(** What a paused write cannot change. *)
Definition paused_like (s s' : state) : Prop :=
  renderPipelineEnabled s' = false
  /\ rawTemplate s' = rawTemplate s
  /\ rawStyles s' = rawStyles s
  /\ history s' = history s.

(** Every hook the widget defines returns normally, in every state. *)
Definition hooks_return (h : host) : Prop :=
  forall f s,
    preRender h = Some f \/ render h = Some f \/ postRender h = Some f ->
    exists v, f s = HReturn v.

(** The value of an own data property. *)
Definition data_value (d : option prop) : option value :=
  match d with
  | Some (DataProp v _ _ _) => Some v
  | _ => None
  end.

(** * Properties *)

(** ** Basic facts about the state updates *)

Lemma truthy_or_null o : truthy (or_null o) = truthy o.
Proof. unfold or_null. destruct (truthy o) eqn:E; [exact E | reflexivity]. Qed.

Lemma truthy_Some_ne t : t <> "" -> truthy (Some t) = true.
Proof.
  intros Hne. simpl. destruct (String.eqb_spec t ""); [contradiction | reflexivity].
Qed.

Lemma runs_emit e s :
  runs (emit e s) = runs s + (if decide (e = PipelineRun) then 1 else 0).
Proof.
  unfold runs, emit; simpl. rewrite count_occ_app; simpl.
  destruct (event_eq_dec e PipelineRun), (decide (e = PipelineRun));
    congruence || lia.
Qed.

Lemma calls_app l1 l2 : calls (l1 ++ l2) = calls l1 ++ calls l2.
Proof. apply omap_app. Qed.

Lemma errors_app l1 l2 : errors (l1 ++ l2) = errors l1 ++ errors l2.
Proof. apply omap_app. Qed.

(** Widget code leaves the component's own fields and its history alone. *)
Lemma call_host_fields f s :
  let s' := final (call_host f s) in
  renderPipelineEnabled s' = renderPipelineEnabled s
  /\ rawTemplate s' = rawTemplate s
  /\ rawStyles s' = rawStyles s
  /\ shadowProperties s' = shadowProperties s
  /\ history s' = history s.
Proof. unfold call_host. destruct (f s); simpl; auto. Qed.

Lemma call_hook_fields h s :
  let s' := final (call_hook h s) in
  renderPipelineEnabled s' = renderPipelineEnabled s
  /\ rawTemplate s' = rawTemplate s
  /\ rawStyles s' = rawStyles s
  /\ shadowProperties s' = shadowProperties s
  /\ history s' = history s.
Proof. destruct h; simpl; [apply call_host_fields | auto]. Qed.

(** ** The default render step *)

Lemma defaultRenderPipeline_innerHTML c s :
  innerHTML (defaultRenderPipeline c s) = default_markup c s.
Proof.
  unfold defaultRenderPipeline, default_markup, evaluateTemplate.
  destruct (template_literal _ _ _); reflexivity.
Qed.

Lemma defaultRenderPipeline_fields c s :
  let s' := defaultRenderPipeline c s in
  renderPipelineEnabled s' = renderPipelineEnabled s
  /\ rawTemplate s' = rawTemplate s
  /\ rawStyles s' = rawStyles s
  /\ shadowProperties s' = shadowProperties s
  /\ el_props s' = el_props s
  /\ el_extensible s' = el_extensible s.
Proof.
  unfold defaultRenderPipeline, evaluateTemplate.
  destruct (template_literal _ _ _); simpl; auto 10.
Qed.

Lemma defaultRenderPipeline_history c s :
  history (defaultRenderPipeline c s) =
  history s ++
    match template_literal (el c) (template_text s) (el_get c s) with
    | inl _ => []
    | inr e => [ConsoleError msg_template_error (Some e)]
    end.
Proof.
  unfold defaultRenderPipeline, evaluateTemplate.
  destruct (template_literal _ _ _); simpl; [by rewrite app_nil_r | done].
Qed.

(** ** One step, and a sequence of steps *)

Lemma run_step_fields c st s :
  let s' := final (run_step c st s) in
  renderPipelineEnabled s' = renderPipelineEnabled s
  /\ rawTemplate s' = rawTemplate s
  /\ rawStyles s' = rawStyles s
  /\ shadowProperties s' = shadowProperties s.
Proof.
  destruct st; simpl.
  1, 2, 4: match goal with |- context [call_hook ?h ?s0] =>
      destruct (call_hook_fields h s0) as (? & ? & ? & ? & _) end; auto.
  destruct (defaultRenderPipeline_fields c (emit (StepCall StepDefault) s))
    as (? & ? & ? & ? & _); auto.
Qed.

Lemma run_step_calls c st s :
  calls (history (final (run_step c st s))) = calls (history s) ++ [st].
Proof.
  destruct st; simpl.
  1, 2, 4: match goal with |- context [call_hook ?h ?s0] =>
      destruct (call_hook_fields h s0) as (_ & _ & _ & _ & ->) end;
    simpl; by rewrite calls_app.
  rewrite defaultRenderPipeline_history; simpl.
  rewrite !calls_app; simpl.
  destruct (template_literal _ _ _); simpl; by rewrite app_nil_r.
Qed.

Lemma run_step_runs c st s : runs (final (run_step c st s)) = runs s.
Proof.
  unfold runs. destruct st; simpl.
  1, 2, 4: match goal with |- context [call_hook ?h ?s0] =>
      destruct (call_hook_fields h s0) as (_ & _ & _ & _ & ->) end;
    simpl; rewrite count_occ_app; simpl; lia.
  rewrite defaultRenderPipeline_history; simpl.
  rewrite !count_occ_app; simpl.
  destruct (template_literal _ _ _); simpl; lia.
Qed.

Lemma run_steps_runs c steps s : runs (final (run_steps c steps s)) = runs s.
Proof.
  revert s; induction steps as [|st rest IH]; intros s; simpl; [done|].
  pose proof (run_step_runs c st s) as Hst.
  destruct (run_step c st s) as [s1|e s1]; simpl in *; [|done].
  by rewrite IH.
Qed.

(** The steps invoked by a pass are a prefix of the sequence, and the
    whole sequence when the pass completes. *)
Lemma run_steps_calls c steps s :
  exists done_, done_ `prefix_of` steps
    /\ calls (history (final (run_steps c steps s))) = calls (history s) ++ done_
    /\ (forall s', run_steps c steps s = Normal s' -> done_ = steps).
Proof.
  revert s; induction steps as [|st rest IH]; intros s; simpl.
  - exists []. split; [done|]. split; [by rewrite app_nil_r | done].
  - pose proof (run_step_calls c st s) as Hst.
    destruct (run_step c st s) as [s1|e s1]; simpl in *.
    + destruct (IH s1) as (d & Hpre & Hcalls & Hall).
      exists (st :: d). split; [by apply prefix_cons|].
      split; [by rewrite Hcalls, Hst, <- app_assoc|].
      intros s' Hs'. by rewrite (Hall s' Hs').
    + exists [st]. split; [apply prefix_cons, prefix_nil|].
      split; [done | discriminate].
Qed.

(** ** Writes while the pipeline is paused *)

Lemma runRenderPipeline_paused c s :
  renderPipelineEnabled s = false -> runRenderPipeline c s = Normal s.
Proof. unfold runRenderPipeline. by intros ->. Qed.

Lemma runRenderPipeline_not_configured c s :
  renderPipelineEnabled s = true -> configured s = false ->
  runRenderPipeline c s = Normal (emit (ConsoleError msg_not_configured None) s).
Proof.
  unfold runRenderPipeline, configured. intros -> Hc; simpl.
  destruct (truthy (rawTemplate s)), (truthy (rawStyles s)); simpl in *; congruence.
Qed.

Lemma runRenderPipeline_configured c s :
  renderPipelineEnabled s = true -> configured s = true ->
  runRenderPipeline c s = run_steps c (customRenderPipeline c) (emit PipelineRun s).
Proof.
  unfold runRenderPipeline, configured. intros -> Hc; simpl.
  destruct (truthy (rawTemplate s)), (truthy (rawStyles s)); simpl in *; congruence.
Qed.

Lemma paused_like_call_host f s :
  renderPipelineEnabled s = false -> paused_like s (final (call_host f s)).
Proof.
  intros Hp. destruct (call_host_fields f s) as (H1 & H2 & H3 & _ & H5).
  unfold paused_like. rewrite H1, H2, H3, H5. auto.
Qed.

Lemma el_set_paused c name v s :
  renderPipelineEnabled s = false -> paused_like s (final (el_set c name v s)).
Proof.
  intros Hp. unfold el_set, call_setter.
  destruct (el_props s !! name) as [[? w ? ?| |? ?]|].
  - destruct w; simpl; by repeat split.
  - unfold setInterceptedProperty. rewrite runRenderPipeline_paused by done.
    simpl; by repeat split.
  - destruct (user_setter (el c) name);
      [by apply paused_like_call_host | by repeat split].
  - destruct (user_setter (el c) name); [by apply paused_like_call_host|].
    destruct (el_extensible s); simpl; by repeat split.
Qed.

Lemma assign_paused c properties s :
  renderPipelineEnabled s = false -> paused_like s (final (assign c properties s)).
Proof.
  revert s; induction properties as [|[name v] rest IH]; intros s Hp; simpl.
  - by repeat split.
  - pose proof (el_set_paused c name v s Hp) as (H1 & H2 & H3 & H4).
    destruct (el_set c name v s) as [s1|e s1]; simpl in *.
    + destruct (IH s1 H1) as (G1 & G2 & G3 & G4).
      unfold paused_like. rewrite G1, G2, G3, G4, H2, H3, H4. auto.
    + by repeat split.
Qed.

(** ** Batched updates: [updateProperties] *)

(** C1 (as amended): when the patch applies without throwing, the writes made
    while the pipeline is paused add nothing to the history (no render, no
    log), and [updateProperties] then makes one call of [runRenderPipeline]
    with the pipeline enabled again.  That call starts the step sequence
    exactly once when template and styles are both non-empty, and not at
    all when either is missing, where it only logs the configuration
    error. In no case does the number of keys matter. *)
Theorem updateProperties_single_render c s properties s1 :
  assign c properties (pauseRenderPipeline s) = Normal s1 ->
  history s1 = history s
  /\ updateProperties c properties s = runRenderPipeline c (resumeRenderPipeline s1)
  /\ runs (final (updateProperties c properties s))
     = runs s + (if configured s then 1 else 0)
  /\ (configured s = true ->
      updateProperties c properties s
      = run_steps c (customRenderPipeline c) (emit PipelineRun (resumeRenderPipeline s1)))
  /\ (configured s = false ->
      updateProperties c properties s
      = Normal (emit (ConsoleError msg_not_configured None) (resumeRenderPipeline s1))).
Proof.
  intros Ha.
  pose proof (assign_paused c properties (pauseRenderPipeline s) eq_refl) as Hp.
  rewrite Ha in Hp; destruct Hp as (_ & Ht & Hs & Hh); simpl in Ht, Hs, Hh.
  assert (Hcfg : configured (resumeRenderPipeline s1) = configured s)
    by (unfold configured; simpl; by rewrite Ht, Hs).
  assert (Hruns : runs (resumeRenderPipeline s1) = runs s)
    by (unfold runs; simpl; by rewrite Hh).
  unfold updateProperties; rewrite Ha.
  split; [done|]. split; [done|].
  destruct (configured s) eqn:Hc.
  - rewrite (runRenderPipeline_configured c (resumeRenderPipeline s1) eq_refl Hcfg).
    split; [|split; [done | discriminate]].
    rewrite run_steps_runs, runs_emit, Hruns. by rewrite decide_True.
  - rewrite (runRenderPipeline_not_configured c (resumeRenderPipeline s1) eq_refl Hcfg).
    split; [|split; [discriminate | done]].
    simpl. rewrite runs_emit, Hruns. by rewrite decide_False.
Qed.

(** C2 (as amended): when applying the patch throws, the [finally] block
    re-enables the pipeline and the same exception reaches the caller; the
    call of [runRenderPipeline] that follows the [try] is not reached, so
    that exit path renders nothing and logs nothing. *)
Theorem updateProperties_throw_resumes c s properties e s1 :
  assign c properties (pauseRenderPipeline s) = Throw e s1 ->
  updateProperties c properties s = Throw e (resumeRenderPipeline s1)
  /\ renderPipelineEnabled (final (updateProperties c properties s)) = true
  /\ history (final (updateProperties c properties s)) = history s.
Proof.
  intros Ha.
  pose proof (assign_paused c properties (pauseRenderPipeline s) eq_refl) as Hp.
  rewrite Ha in Hp; destruct Hp as (_ & _ & _ & Hh); simpl in Hh.
  unfold updateProperties; rewrite Ha; simpl. auto.
Qed.

(** ** The step sequence *)

Lemma call_hook_returns h f s :
  h = Some f -> (exists v, f s = HReturn v) -> exists s', call_hook h s = Normal s'.
Proof. intros -> [v Hv]. simpl. unfold call_host. rewrite Hv. eauto. Qed.

Lemma constructor_steps_return h props ext t st s :
  hooks_return h ->
  exists s', run_steps (constructor h props ext t st).1
               (customRenderPipeline (constructor h props ext t st).1) s = Normal s'.
Proof.
  intros Hr. simpl.
  destruct (preRender h) as [f1|] eqn:E1, (render h) as [f2|] eqn:E2,
           (postRender h) as [f3|] eqn:E3; simpl; rewrite ?E1, ?E2, ?E3; simpl;
    repeat match goal with
    | |- context [call_host ?f ?s0] =>
        let v := fresh "v" in let Hv := fresh "Hv" in
        destruct (Hr f s0) as [v Hv]; [by auto|];
        unfold call_host at 1; rewrite Hv; simpl
    end; eauto.
Qed.


(** ** Property interception: [watchForFieldChanges] *)

Lemma interceptable_spec d :
  interceptable d = true <-> exists v, d = Some (DataProp v true true true).
Proof.
  split.
  - destruct d as [[v [] [] []| |? ?]|]; simpl; try discriminate. eauto.
  - intros [v ->]. reflexivity.
Qed.

Lemma intercept_skip s attr :
  interceptable (el_props s !! attr) = false -> intercept s attr = s.
Proof.
  unfold intercept, interceptable.
  destruct (el_props s !! attr) as [[v w e cf| |? ?]|]; try done.
  by intros ->.
Qed.

Lemma intercept_hit s attr :
  interceptable (el_props s !! attr) = true ->
  el_props (intercept s attr) !! attr = Some InterceptedProp
  /\ shadowProperties (intercept s attr) !! attr = data_value (el_props s !! attr).
Proof.
  unfold intercept, interceptable.
  destruct (el_props s !! attr) as [[v w e cf| |? ?]|]; try done.
  intros ->; simpl. by rewrite !lookup_insert_eq.
Qed.

Lemma intercept_other s attr k :
  attr <> k ->
  el_props (intercept s attr) !! k = el_props s !! k
  /\ shadowProperties (intercept s attr) !! k = shadowProperties s !! k.
Proof.
  intros Hne. unfold intercept.
  destruct (el_props s !! attr) as [[v w e cf| |? ?]|]; try done.
  destruct (cf && w && e); simpl; [|done].
  by rewrite !lookup_insert_ne.
Qed.

Lemma intercept_fields s attr :
  let s' := intercept s attr in
  renderPipelineEnabled s' = renderPipelineEnabled s
  /\ rawTemplate s' = rawTemplate s
  /\ rawStyles s' = rawStyles s
  /\ el_extensible s' = el_extensible s
  /\ innerHTML s' = innerHTML s
  /\ history s' = history s.
Proof.
  unfold intercept.
  destruct (el_props s !! attr) as [[v w e cf| |? ?]|]; simpl; auto 10.
  destruct (cf && w && e); simpl; auto 10.
Qed.

Lemma watch_loop_fields attrs s :
  let s' := foldl intercept s attrs in
  renderPipelineEnabled s' = renderPipelineEnabled s
  /\ rawTemplate s' = rawTemplate s
  /\ rawStyles s' = rawStyles s
  /\ el_extensible s' = el_extensible s
  /\ innerHTML s' = innerHTML s
  /\ history s' = history s.
Proof.
  revert s; induction attrs as [|a rest IH]; intros s; simpl; [auto 10|].
  destruct (IH (intercept s a)) as (H1 & H2 & H3 & H4 & H5 & H6).
  destruct (intercept_fields s a) as (G1 & G2 & G3 & G4 & G5 & G6).
  rewrite H1, H2, H3, H4, H5, H6. auto 10.
Qed.

Lemma watchForFieldChanges_fields c s :
  let s' := watchForFieldChanges c s in
  renderPipelineEnabled s' = renderPipelineEnabled s
  /\ rawTemplate s' = rawTemplate s
  /\ rawStyles s' = rawStyles s
  /\ el_extensible s' = el_extensible s
  /\ innerHTML s' = innerHTML s
  /\ history s' = history s.
Proof.
  unfold watchForFieldChanges.
  destruct (observedAttributes (el c)); [apply watch_loop_fields | auto 10].
Qed.

(** A name that is not in the list, or whose descriptor fails the test, is
    left as it is by the whole loop. *)
Lemma watch_loop_skipped attrs s k :
  k ∉ attrs \/ interceptable (el_props s !! k) = false ->
  el_props (foldl intercept s attrs) !! k = el_props s !! k
  /\ shadowProperties (foldl intercept s attrs) !! k = shadowProperties s !! k.
Proof.
  revert s; induction attrs as [|a rest IH]; intros s Hk; simpl; [done|].
  destruct (decide (a = k)) as [->|Hne].
  - destruct Hk as [Hk|Hk]; [exfalso; apply Hk; by left|].
    rewrite (intercept_skip s k Hk). apply IH. by right.
  - destruct (intercept_other s a k Hne) as [Hp Hs].
    destruct (IH (intercept s a)) as [Hp' Hs'].
    + destruct Hk as [Hk|Hk]; [left | right; by rewrite Hp].
      intros Hin. apply Hk. by right.
    + by rewrite Hp', Hs', Hp, Hs.
Qed.

(** A listed name whose descriptor passes the test ends up intercepted,
    with the value it had copied into the store. *)
Lemma watch_loop_intercepted attrs s k :
  k ∈ attrs -> interceptable (el_props s !! k) = true ->
  el_props (foldl intercept s attrs) !! k = Some InterceptedProp
  /\ shadowProperties (foldl intercept s attrs) !! k = data_value (el_props s !! k).
Proof.
  revert s; induction attrs as [|a rest IH]; intros s Hin Hok; simpl.
  - by apply elem_of_nil in Hin.
  - destruct (decide (a = k)) as [->|Hne].
    + destruct (intercept_hit s k Hok) as [Hp Hs].
      destruct (watch_loop_skipped rest (intercept s k) k) as [Hp' Hs'].
      { right. by rewrite Hp. }
      by rewrite Hp', Hs', Hp, Hs.
    + apply elem_of_cons in Hin as [->|Hin]; [done|].
      destruct (intercept_other s a k Hne) as [Hp Hs].
      destruct (IH (intercept s a) Hin) as [Hp' Hs']; [by rewrite Hp|].
      by rewrite Hp', Hs', Hp.
Qed.

Lemma watch_loop_fixed attrs s :
  (forall a, a ∈ attrs -> interceptable (el_props s !! a) = false) ->
  foldl intercept s attrs = s.
Proof.
  revert s; induction attrs as [|a rest IH]; intros s Hall; simpl; [done|].
  rewrite (intercept_skip s a) by (apply Hall; by left).
  apply IH. intros b Hb. apply Hall. by right.
Qed.

(** A write to a name that is not intercepted never reaches
    [runRenderPipeline]. *)
Lemma el_set_plain c name v s :
  el_props s !! name <> Some InterceptedProp ->
  history (final (el_set c name v s)) = history s.
Proof.
  intros Hn. unfold el_set, call_setter.
  destruct (el_props s !! name) as [[? w ? ?| |? ?]|]; [| done | |].
  - by destruct w.
  - destruct (user_setter (el c) name); [|done].
    by destruct (call_host_fields (h v) s) as (_ & _ & _ & _ & ->).
  - destruct (user_setter (el c) name).
    + by destruct (call_host_fields (h v) s) as (_ & _ & _ & _ & ->).
    + by destruct (el_extensible s).
Qed.

(** C4: for an observed name that was not intercepted before, the name is
    in the store after [watchForFieldChanges] exactly when the element had
    an own data property for it that was writable, enumerable and
    configurable; in that case the property has become the intercepting
    accessor and the store holds the value it had. Otherwise the name is
    skipped without any error, its descriptor is what it was, and writing
    it adds nothing to the history: no render and no log. *)
Theorem watchForFieldChanges_store c s attrs k v :
  observedAttributes (el c) = Some attrs ->
  k ∈ attrs ->
  shadowProperties s !! k = None ->
  el_props s !! k <> Some InterceptedProp ->
  (is_Some (shadowProperties (watchForFieldChanges c s) !! k)
   <-> exists v0, el_props s !! k = Some (DataProp v0 true true true))
  /\ (forall v0, el_props s !! k = Some (DataProp v0 true true true) ->
      el_props (watchForFieldChanges c s) !! k = Some InterceptedProp
      /\ shadowProperties (watchForFieldChanges c s) !! k = Some v0)
  /\ ((~ exists v0, el_props s !! k = Some (DataProp v0 true true true)) ->
      el_props (watchForFieldChanges c s) !! k = el_props s !! k
      /\ history (final (el_set c k v (watchForFieldChanges c s))) = history s)
  /\ history (watchForFieldChanges c s) = history s.
Proof.
  intros Hattrs Hin Hfresh Hplain.
  pose proof (watchForFieldChanges_fields c s) as (_ & _ & _ & _ & _ & Hh).
  unfold watchForFieldChanges in *. rewrite Hattrs in *.
  split; [|split; [|split; [|exact Hh]]].
  - rewrite <- interceptable_spec.
    destruct (interceptable (el_props s !! k)) eqn:Hok.
    + destruct (watch_loop_intercepted attrs s k Hin Hok) as [_ Hs].
      rewrite Hs. apply interceptable_spec in Hok as [v0 ->]. simpl.
      split; [done | eauto].
    + destruct (watch_loop_skipped attrs s k) as [_ Hs]; [by right|].
      rewrite Hs, Hfresh. split; [by intros [? ?] | done].
  - intros v0 Hd.
    destruct (watch_loop_intercepted attrs s k Hin) as [Hp Hs].
    { apply interceptable_spec; eauto. }
    rewrite Hp, Hs, Hd. done.
  - intros Hno.
    destruct (watch_loop_skipped attrs s k) as [Hp _].
    { right. destruct (interceptable (el_props s !! k)) eqn:Hok; [|done].
      exfalso. apply Hno. by apply interceptable_spec. }
    split; [exact Hp|].
    rewrite el_set_plain by (by rewrite Hp). exact Hh.
Qed.

(** C9: interception is idempotent. A property that is already intercepted
    is skipped by the loop body, which leaves the whole state as it is; so
    after any run its accessor is still the intercepting one and its stored
    value is unchanged, and a second run of [watchForFieldChanges] changes
    nothing at all. *)
Theorem watchForFieldChanges_idempotent c s k :
  el_props s !! k = Some InterceptedProp ->
  intercept s k = s
  /\ el_props (watchForFieldChanges c s) !! k = Some InterceptedProp
  /\ shadowProperties (watchForFieldChanges c s) !! k = shadowProperties s !! k
  /\ history (watchForFieldChanges c s) = history s
  /\ watchForFieldChanges c (watchForFieldChanges c s) = watchForFieldChanges c s.
Proof.
  intros Hk.
  assert (Hno : interceptable (el_props s !! k) = false) by (by rewrite Hk).
  pose proof (watchForFieldChanges_fields c s) as (_ & _ & _ & _ & _ & Hh).
  split; [by apply intercept_skip|].
  unfold watchForFieldChanges in *.
  destruct (observedAttributes (el c)) as [attrs|]; [|done].
  destruct (watch_loop_skipped attrs s k) as [Hp Hs]; [by right|].
  rewrite Hp, Hs. repeat (split; [done|]).
  apply watch_loop_fixed. intros a Ha.
  destruct (interceptable (el_props s !! a)) eqn:Hok.
  - destruct (watch_loop_intercepted attrs s a Ha Hok) as [-> _]. done.
  - destruct (watch_loop_skipped attrs s a) as [-> _]; [by right | done].
Qed.

(** ** Rendering without configuration *)

Lemma configureTemplate_renders c t st s :
  renderPipelineEnabled s = true -> t <> "" -> st <> "" ->
  configureTemplate c t st no_settings s
  = run_steps c (customRenderPipeline c)
      (emit PipelineRun (watchForFieldChanges c (set_raw (Some t) (Some st) s))).
Proof.
  intros He Ht Hst. unfold configureTemplate; simpl.
  pose proof (watchForFieldChanges_fields c (set_raw (Some t) (Some st) s))
    as (H1 & H2 & H3 & _).
  apply runRenderPipeline_configured.
  - by rewrite H1.
  - unfold configured. rewrite H2, H3. cbn [set_raw rawTemplate rawStyles].
    by rewrite !truthy_Some_ne.
Qed.

(** C5 (as amended): a call of [runRenderPipeline] made while the pipeline
    is enabled and the template or the styles are missing logs the
    configuration error and returns: it does not throw, leaves the shadow
    markup and every field as they were, and starts no pass and invokes no
    step. The failure is recoverable: configuring a non-empty template and
    non-empty styles afterwards starts a pass of the step sequence.  While
    the pipeline is paused the call returns at once and logs nothing. *)
Theorem runRenderPipeline_missing_configuration c s t st :
  renderPipelineEnabled s = true ->
  configured s = false ->
  t <> "" -> st <> "" ->
  runRenderPipeline c s = Normal (emit (ConsoleError msg_not_configured None) s)
  /\ errors (history (final (runRenderPipeline c s)))
     = errors (history s) ++ [msg_not_configured]
  /\ innerHTML (final (runRenderPipeline c s)) = innerHTML s
  /\ calls (history (final (runRenderPipeline c s))) = calls (history s)
  /\ runs (final (runRenderPipeline c s)) = runs s
  /\ runs (final (configureTemplate c t st no_settings
                    (final (runRenderPipeline c s)))) = S (runs s)
  /\ runRenderPipeline c (pauseRenderPipeline s)
     = Normal (pauseRenderPipeline s).
Proof.
  intros He Hc Ht Hst.
  rewrite (runRenderPipeline_not_configured c s He Hc). simpl.
  split; [done|]. split; [by rewrite errors_app|].
  split; [done|]. split; [rewrite calls_app; simpl; by rewrite app_nil_r|].
  split; [rewrite runs_emit; rewrite decide_False by done; lia|].
  split; [|by apply runRenderPipeline_paused].
  rewrite configureTemplate_renders by done.
  rewrite run_steps_runs, runs_emit. rewrite decide_True by done.
  unfold runs.
  pose proof (watchForFieldChanges_fields c
    (set_raw (Some t) (Some st) (emit (ConsoleError msg_not_configured None) s)))
    as (_ & _ & _ & _ & _ & ->).
  simpl. rewrite count_occ_app. simpl. lia.
Qed.

(** ** Pausing and resuming *)

(** C7: a write to an intercepted property made while the pipeline is paused
    stores the value and adds nothing to the history; the same write after
    [resumeRenderPipeline] stores the value and enters the pipeline, which
    starts a pass of the step sequence when template and styles are
    configured (and logs the configuration error otherwise).
    [pauseRenderPipeline] and [resumeRenderPipeline] set the flag and leave
    every other field, the shadow markup and the history as they were. *)
Theorem pause_gates_intercepted_writes c s name v :
  el_props s !! name = Some InterceptedProp ->
  (exists s', el_set c name v (pauseRenderPipeline s) = Normal s'
     /\ shadowProperties s' !! name = Some v
     /\ history s' = history s)
  /\ el_set c name v (resumeRenderPipeline s)
     = runRenderPipeline c
         (set_shadowProperties (<[name := v]> (shadowProperties s))
            (resumeRenderPipeline s))
  /\ shadowProperties (final (el_set c name v (resumeRenderPipeline s))) !! name
     = Some v
  /\ (configured s = true ->
      runs (final (el_set c name v (resumeRenderPipeline s))) = S (runs s))
  /\ (configured s = false ->
      errors (history (final (el_set c name v (resumeRenderPipeline s))))
      = errors (history s) ++ [msg_not_configured])
  /\ pauseRenderPipeline s
     = mkState false (rawTemplate s) (rawStyles s) (shadowProperties s)
         (el_props s) (el_extensible s) (innerHTML s) (history s)
  /\ resumeRenderPipeline s
     = mkState true (rawTemplate s) (rawStyles s) (shadowProperties s)
         (el_props s) (el_extensible s) (innerHTML s) (history s).
Proof.
  intros Hk.
  split.
  { unfold el_set; simpl; rewrite Hk. unfold setInterceptedProperty.
    rewrite runRenderPipeline_paused by done.
    eexists; split; [reflexivity|]. simpl. by rewrite lookup_insert_eq. }
  assert (Hset : el_set c name v (resumeRenderPipeline s)
     = runRenderPipeline c
         (set_shadowProperties (<[name := v]> (shadowProperties s))
            (resumeRenderPipeline s)))
    by (unfold el_set; simpl; by rewrite Hk).
  split; [exact Hset|]. rewrite Hset.
  set (s1 := set_shadowProperties _ _).
  split; [|split; [|split; [|done]]].
  - destruct (configured s) eqn:Hc.
    + rewrite (runRenderPipeline_configured c s1 eq_refl Hc).
      assert (Hst : forall steps s0,
        shadowProperties (final (run_steps c steps s0)) = shadowProperties s0).
      { induction steps as [|x rest IH]; intros s0; simpl; [done|].
        destruct (run_step_fields c x s0) as (_ & _ & _ & Hsp).
        destruct (run_step c x s0); simpl in *; [by rewrite IH | done]. }
      rewrite Hst. simpl. by rewrite lookup_insert_eq.
    + rewrite (runRenderPipeline_not_configured c s1 eq_refl Hc).
      simpl. by rewrite lookup_insert_eq.
  - intros Hc. rewrite (runRenderPipeline_configured c s1 eq_refl Hc).
    rewrite run_steps_runs, runs_emit. rewrite decide_True by done.
    unfold runs; simpl. lia.
  - intros Hc. rewrite (runRenderPipeline_not_configured c s1 eq_refl Hc).
    simpl. by rewrite errors_app.
Qed.

(** ** The markup written by the default step *)

(** C6 (as amended): for a widget with no [render] hook, in a state where a
    non-empty template and non-empty styles are configured and the pipeline
    is enabled, once [preRender] (if there is one) has returned, the default
    step replaces the shadow markup by exactly
    [<style>{styles}</style>{evaluated template}], the template being
    evaluated by the engine with the element's fields as context.  That is
    the content of the rendering scope after the run when the widget has no
    [postRender]; a [postRender] hook runs next, on that markup, and the
    content after the run is what it leaves. *)
Theorem default_render_markup h props ext t0 st0 c s t st s1 :
  (constructor h props ext t0 st0).1 = c ->
  render h = None ->
  renderPipelineEnabled s = true ->
  rawTemplate s = Some t -> t <> "" ->
  rawStyles s = Some st -> st <> "" ->
  run_steps c (opt_step StepPreRender (preRender h)) (emit PipelineRun s)
    = Normal s1 ->
  exists s2,
    run_step c StepDefault s1 = Normal s2
    /\ innerHTML s2
       = "<style>" +:+ st +:+ "</style>" +:+
         match template_literal h t (el_get c (emit (StepCall StepDefault) s1)) with
         | inl text => text
         | inr _ => ""
         end
    /\ runRenderPipeline c s
       = run_steps c (opt_step StepPostRender (postRender h)) s2
    /\ match postRender h with
       | None => runRenderPipeline c s = Normal s2
       | Some f =>
           runRenderPipeline c s = call_host f (emit (StepCall StepPostRender) s2)
       end.
Proof.
  intros <- Hr He Ht Htn Hs Hsn Hpre.
  set (c := (constructor h props ext t0 st0).1) in *.
  assert (Hraw : forall steps s0,
    rawTemplate (final (run_steps c steps s0)) = rawTemplate s0
    /\ rawStyles (final (run_steps c steps s0)) = rawStyles s0).
  { induction steps as [|x rest IH]; intros s0; simpl; [done|].
    destruct (run_step_fields c x s0) as (_ & H2 & H3 & _).
    destruct (run_step c x s0); simpl in *; [|done].
    destruct (IH s2) as [-> ->]. done. }
  destruct (Hraw (opt_step StepPreRender (preRender h)) (emit PipelineRun s))
    as [Ht1 Hs1].
  rewrite Hpre in Ht1, Hs1; simpl in Ht1, Hs1.
  eexists; split; [reflexivity|]. split.
  - rewrite defaultRenderPipeline_innerHTML.
    unfold default_markup, evaluateTemplate, template_text; simpl.
    rewrite Ht1, Hs1, Ht, Hs; simpl.
    by destruct (template_literal h t _).
  - assert (Hrun : runRenderPipeline c s
                   = run_steps c (opt_step StepPostRender (postRender h))
                       (defaultRenderPipeline c (emit (StepCall StepDefault) s1))).
    { rewrite runRenderPipeline_configured; [|done|].
      + change (customRenderPipeline c) with
          (opt_step StepPreRender (preRender h)
           ++ [render_step (render h)] ++ opt_step StepPostRender (postRender h)).
        rewrite Hr; simpl.
        assert (Happ : forall l1 l2 s0,
          run_steps c (l1 ++ l2) s0 = bind (run_steps c l1 s0) (run_steps c l2)).
        { induction l1 as [|x l1 IH]; intros l2 s0; simpl; [done|].
          destruct (run_step c x s0); simpl; [apply IH | done]. }
        rewrite Happ, Hpre. reflexivity.
      + unfold configured. rewrite Ht, Hs. by rewrite !truthy_Some_ne. }
    split; [exact Hrun|].
    rewrite Hrun.
    destruct (postRender h) as [f|] eqn:Hpost; simpl; [|done].
    change (el c) with h. rewrite Hpost. simpl.
    by destruct (call_host f _).
Qed.

(** C8: when evaluating the template throws, [evaluateTemplate] catches the
    exception, logs it and yields the empty string; the default step then
    still writes the markup, which is the style block alone, and completes
    normally. *)
Theorem template_failure_is_caught c s e :
  template_literal (el c) (template_text s) (el_get c s) = inr e ->
  evaluateTemplate c s = ("", emit (ConsoleError msg_template_error (Some e)) s)
  /\ innerHTML (defaultRenderPipeline c s)
     = "<style>" +:+ or_empty (rawStyles s) +:+ "</style>"
  /\ history (defaultRenderPipeline c s)
     = history s ++ [ConsoleError msg_template_error (Some e)]
  /\ (forall s0, run_step c StepDefault s0
      = Normal (defaultRenderPipeline c (emit (StepCall StepDefault) s0))).
Proof.
  intros He.
  split; [unfold evaluateTemplate; by rewrite He|].
  split; [|split; [|done]].
  - rewrite defaultRenderPipeline_innerHTML.
    unfold default_markup, evaluateTemplate. by rewrite He.
  - rewrite defaultRenderPipeline_history. by rewrite He.
Qed.

(** ** The empty string as template or styles *)

(** C10: the constructor stores [null] for an empty template or empty
    styles, exactly as for a missing argument; [runRenderPipeline] does in
    every state the same with an empty stored text as with [null]; and
    after construction and a [configureTemplate] that was given an empty
    template or empty styles, [runRenderPipeline] logs the configuration
    error, starts no pass, invokes no step and leaves the shadow root
    empty. *)
Theorem empty_string_is_absent h props ext t0 st0 t st cfg s x :
  t = "" \/ st = "" ->
  constructor h props ext (Some "") st0 = constructor h props ext None st0
  /\ constructor h props ext t0 (Some "") = constructor h props ext t0 None
  /\ rawTemplate (constructor h props ext (Some "") st0).2 = None
  /\ rawStyles (constructor h props ext t0 (Some "")).2 = None
  /\ runRenderPipeline (constructor h props ext t0 st0).1 (set_raw (Some "") x s)
     = Normal (set_raw (Some "") x
         (final (runRenderPipeline (constructor h props ext t0 st0).1
                   (set_raw None x s))))
  /\ runRenderPipeline (constructor h props ext t0 st0).1 (set_raw x (Some "") s)
     = Normal (set_raw x (Some "")
         (final (runRenderPipeline (constructor h props ext t0 st0).1
                   (set_raw x None s))))
  /\ exists s1,
       configureTemplate (constructor h props ext t0 st0).1 t st cfg
         (constructor h props ext t0 st0).2 = Normal s1
       /\ runRenderPipeline (constructor h props ext t0 st0).1 s1
          = Normal (emit (ConsoleError msg_not_configured None) s1)
       /\ calls (history s1) = []
       /\ runs s1 = 0
       /\ innerHTML s1 = "".
Proof.
  intros Hempty.
  split; [done|]. split; [by destruct t0|].
  split; [done|]. split; [done|].
  set (c := (constructor h props ext t0 st0).1).
  split; [|split].
  - unfold runRenderPipeline; simpl.
    destruct (renderPipelineEnabled s); simpl; [|done].
    by destruct (truthy x).
  - unfold runRenderPipeline; simpl.
    destruct (renderPipelineEnabled s); simpl; [|done].
    by destruct (truthy x).
  - set (s0 := (constructor h props ext t0 st0).2).
    set (sr := set_raw (Some t) (Some st) s0).
    assert (Hcfg : forall s', rawTemplate s' = Some t -> rawStyles s' = Some st ->
                     configured s' = false).
    { intros s' H1 H2. unfold configured. rewrite H1, H2.
      destruct Hempty as [-> | ->]; simpl; [done | by rewrite andb_false_r]. }
    assert (Hw : let s' := if default true (opt_watchForFieldChanges cfg)
                           then watchForFieldChanges c sr else sr in
                 renderPipelineEnabled s' = true /\ configured s' = false
                 /\ history s' = [] /\ innerHTML s' = "").
    { destruct (default true (opt_watchForFieldChanges cfg)); simpl.
      - pose proof (watchForFieldChanges_fields c sr)
          as (H1 & H2 & H3 & _ & H5 & H6).
        rewrite H1, H5, H6. repeat split; try done. by apply Hcfg.
      - repeat split; try done. by apply Hcfg. }
    unfold configureTemplate. fold s0. fold sr.
    destruct Hw as (He & Hc & Hh & Hi).
    set (s' := if default true (opt_watchForFieldChanges cfg)
               then watchForFieldChanges c sr else sr) in *.
    destruct (default true (opt_immediateRender cfg)).
    + rewrite (runRenderPipeline_not_configured c s' He Hc).
      eexists; split; [reflexivity|].
      split; [by apply runRenderPipeline_not_configured|].
      unfold runs; simpl; rewrite Hh; simpl. done.
    + exists s'. split; [done|].
      split; [by apply runRenderPipeline_not_configured|].
      unfold runs; rewrite Hh; simpl. done.
Qed.

(** The scenario of the greeting element: the first render, and the
    automatic re-render when the watched field is written. *)
Example hello_first_render :
  innerHTML hello_ready = "<style>span{color:red}</style>Hello, World!"
  /\ el_props hello_ready !! "name" = Some InterceptedProp
  /\ shadowProperties hello_ready !! "name" = Some (VStr "World").
Proof. vm_compute. auto. Qed.

Example hello_rerender :
  innerHTML (final (el_set hello_c "name" (VStr "Ada") hello_ready))
  = "<style>span{color:red}</style>Hello, Ada!".
Proof. vm_compute. reflexivity. Qed.

(** The chart's patch of two watched fields: one pass, not two. *)
Example donut_batch :
  runs (final (updateProperties donut_c
                 [("items", VStr "[1]"); ("width", VNum 3)] donut_ready))
  = S (runs donut_ready).
Proof. vm_compute. reflexivity. Qed.

(** ** Where the statements of the specification fail *)

(** C1, as stated, fails on a component that has not been configured: the
    chart with its fields intercepted but no template yet takes the patch,
    logs the configuration error and starts no pass. *)
Lemma updateProperties_unconfigured_no_pass :
  ~ (forall c s properties s1,
       assign c properties (pauseRenderPipeline s) = Normal s1 ->
       runs (final (updateProperties c properties s)) = S (runs s)).
Proof.
  intros H.
  pose proof (H donut_c donut_watched [("items", VStr "[1]"); ("width", VNum 3)]
                (final (assign donut_c [("items", VStr "[1]"); ("width", VNum 3)]
                          (pauseRenderPipeline donut_watched)))
                ltac:(vm_compute; reflexivity)) as H1.
  vm_compute in H1. discriminate H1.
Qed.

(** C2, as stated, fails where it says that a render still happens: on
    the configured chart a patch that assigns the getter-only [shadow]
    throws, the pipeline is enabled again, and no pass is started. *)
Lemma updateProperties_throw_skips_render :
  ~ (forall c s properties e s1,
       assign c properties (pauseRenderPipeline s) = Throw e s1 ->
       exists s', updateProperties c properties s = Throw e s'
         /\ renderPipelineEnabled s' = true
         /\ runs s < runs s').
Proof.
  intros H.
  destruct (H donut_c donut_ready [("items", VStr "[1]"); ("shadow", VNum 3)]
              TypeError
              (final (assign donut_c [("items", VStr "[1]"); ("shadow", VNum 3)]
                        (pauseRenderPipeline donut_ready)))
              ltac:(vm_compute; reflexivity)) as (s' & Hu & _ & Hlt).
  vm_compute in Hu. injection Hu as <-.
  vm_compute in Hlt. lia.
Qed.

(** C6, as stated, fails for a widget whose [postRender] writes into the
    shadow root, as the donut chart's does: after the run the scope holds
    what [postRender] left, not the style block and the evaluated template
    alone. *)
Lemma default_render_markup_overwritten :
  ~ (forall h props ext t0 st0 s t st,
       render h = None ->
       renderPipelineEnabled s = true ->
       rawTemplate s = Some t -> t <> "" ->
       rawStyles s = Some st -> st <> "" ->
       exists text,
         (text = "" \/ exists this, template_literal h t this = inl text)
         /\ innerHTML (final (runRenderPipeline (constructor h props ext t0 st0).1 s))
            = "<style>" +:+ st +:+ "</style>" +:+ text).
Proof.
  intros H.
  destruct (H Legend.widget donut_props true
              (Some Legend.chart_template) (Some Legend.chart_styles)
              Legend.widget_new Legend.chart_template Legend.chart_styles
              eq_refl eq_refl eq_refl ltac:(discriminate)
              eq_refl ltac:(discriminate)) as (text & Htext & Hhtml).
  destruct Htext as [-> | (this & Heval)].
  - vm_compute in Hhtml. discriminate Hhtml.
  - vm_compute in Heval. injection Heval as <-.
    vm_compute in Hhtml. discriminate Hhtml.
Qed.

(** C5, as stated, fails for a call made while the pipeline is paused: the
    pause is tested first, so the call returns without logging. *)
Lemma runRenderPipeline_paused_is_silent :
  ~ (forall c s,
       configured s = false ->
       errors (history (final (runRenderPipeline c s))) <> errors (history s)).
Proof.
  intros H.
  apply (H hello_c (pauseRenderPipeline hello_new)); vm_compute; reflexivity.
Qed.

(** ** The theorems at the sample widgets *)

Lemma updateProperties_single_render_witness :
  assign donut_c [("items", VStr "[1]"); ("width", VNum 3)]
    (pauseRenderPipeline donut_ready)
  = Normal (final (assign donut_c [("items", VStr "[1]"); ("width", VNum 3)]
                     (pauseRenderPipeline donut_ready)))
  /\ runs (final (updateProperties donut_c
                    [("items", VStr "[1]"); ("width", VNum 3)] donut_ready))
     = runs donut_ready + (if configured donut_ready then 1 else 0).
Proof.
  split; [vm_compute; reflexivity|].
  apply (updateProperties_single_render donut_c donut_ready
           [("items", VStr "[1]"); ("width", VNum 3)]
           (final (assign donut_c [("items", VStr "[1]"); ("width", VNum 3)]
                     (pauseRenderPipeline donut_ready)))).
  vm_compute; reflexivity.
Defined.

Lemma updateProperties_throw_resumes_witness :
  assign donut_c [("items", VStr "[1]"); ("shadow", VNum 3)]
    (pauseRenderPipeline donut_ready)
  = Throw TypeError
      (final (assign donut_c [("items", VStr "[1]"); ("shadow", VNum 3)]
                (pauseRenderPipeline donut_ready)))
  /\ history (final (updateProperties donut_c
                       [("items", VStr "[1]"); ("shadow", VNum 3)] donut_ready))
     = history donut_ready.
Proof.
  split; [vm_compute; reflexivity|].
  apply (updateProperties_throw_resumes donut_c donut_ready
           [("items", VStr "[1]"); ("shadow", VNum 3)] TypeError
           (final (assign donut_c [("items", VStr "[1]"); ("shadow", VNum 3)]
                     (pauseRenderPipeline donut_ready)))).
  vm_compute; reflexivity.
Defined.



Lemma watchForFieldChanges_store_witness :
  observedAttributes (el donut_c)
    = Some ["items"; "width"; "height"; "border-color"]
  /\ "border-color" ∈ ["items"; "width"; "height"; "border-color"]
  /\ shadowProperties donut_new !! "border-color" = None
  /\ el_props donut_new !! "border-color" <> Some InterceptedProp
  /\ (is_Some (shadowProperties (watchForFieldChanges donut_c donut_new)
                 !! "border-color")
      <-> exists v0, el_props donut_new !! "border-color"
                     = Some (DataProp v0 true true true)).
Proof.
  assert (Hin : "border-color" ∈ ["items"; "width"; "height"; "border-color"])
    by (rewrite !elem_of_cons; auto).
  split; [reflexivity|]. split; [exact Hin|].
  split; [vm_compute; reflexivity|]. split; [vm_compute; discriminate|].
  apply (watchForFieldChanges_store donut_c donut_new
           ["items"; "width"; "height"; "border-color"] "border-color" VNull
           eq_refl Hin ltac:(vm_compute; reflexivity)
           ltac:(vm_compute; discriminate)).
Defined.

Lemma runRenderPipeline_missing_configuration_witness :
  renderPipelineEnabled hello_new = true
  /\ configured hello_new = false
  /\ hello_template <> "" /\ hello_styles <> ""
  /\ runRenderPipeline hello_c hello_new
     = Normal (emit (ConsoleError msg_not_configured None) hello_new).
Proof.
  split; [reflexivity|]. split; [reflexivity|].
  split; [discriminate|]. split; [discriminate|].
  apply (runRenderPipeline_missing_configuration hello_c hello_new
           hello_template hello_styles eq_refl eq_refl
           ltac:(discriminate) ltac:(discriminate)).
Defined.

Lemma default_render_markup_witness :
  exists s2,
    runRenderPipeline hello_c hello_ready = Normal s2
    /\ innerHTML s2
       = "<style>" +:+ hello_styles +:+ "</style>" +:+ "Hello, World!".
Proof.
  destruct (default_render_markup hello_world hello_props true None None hello_c
              hello_ready hello_template hello_styles
              (emit PipelineRun hello_ready)
              eq_refl eq_refl ltac:(vm_compute; reflexivity)
              ltac:(vm_compute; reflexivity) ltac:(discriminate)
              ltac:(vm_compute; reflexivity) ltac:(discriminate)
              eq_refl) as (s2 & Hstep & Hhtml & _ & Hend).
  exists s2. split; [exact Hend|]. rewrite Hhtml. vm_compute. reflexivity.
Defined.

Lemma pause_gates_intercepted_writes_witness :
  el_props hello_ready !! "name" = Some InterceptedProp
  /\ exists s', el_set hello_c "name" (VStr "Ada") (pauseRenderPipeline hello_ready)
               = Normal s'
       /\ shadowProperties s' !! "name" = Some (VStr "Ada")
       /\ history s' = history hello_ready.
Proof.
  split; [vm_compute; reflexivity|].
  apply (pause_gates_intercepted_writes hello_c hello_ready "name" (VStr "Ada")).
  vm_compute; reflexivity.
Defined.

(** The greeting element given a template that names an unknown variable. *)
Lemma template_failure_is_caught_witness :
  innerHTML (defaultRenderPipeline hello_c
               (set_raw (Some broken_template) (Some hello_styles) hello_new))
  = "<style>span{color:red}</style>".
Proof.
  apply (template_failure_is_caught hello_c
           (set_raw (Some broken_template) (Some hello_styles) hello_new)
           (HostError "ReferenceError: nobody")).
  vm_compute; reflexivity.
Defined.

Lemma watchForFieldChanges_idempotent_witness :
  el_props hello_ready !! "name" = Some InterceptedProp
  /\ shadowProperties (watchForFieldChanges hello_c hello_ready) !! "name"
     = shadowProperties hello_ready !! "name"
  /\ watchForFieldChanges hello_c (watchForFieldChanges hello_c hello_ready)
     = watchForFieldChanges hello_c hello_ready.
Proof.
  split; [vm_compute; reflexivity|].
  destruct (watchForFieldChanges_idempotent hello_c hello_ready "name"
              ltac:(vm_compute; reflexivity)) as (_ & _ & Hs & _ & Hi).
  split; [exact Hs | exact Hi].
Defined.

Lemma empty_string_is_absent_witness :
  exists s1,
    configureTemplate hello_c "" hello_styles no_settings hello_new = Normal s1
    /\ runRenderPipeline hello_c s1
       = Normal (emit (ConsoleError msg_not_configured None) s1)
    /\ calls (history s1) = [] /\ runs s1 = 0 /\ innerHTML s1 = "".
Proof.
  apply (empty_string_is_absent hello_world hello_props true None None
           "" hello_styles no_settings hello_new None (or_introl eq_refl)).
Defined.

(** * Further properties of the component *)

(** ** What a pass leaves alone *)

Lemma run_steps_fields c steps s :
  let s' := final (run_steps c steps s) in
  renderPipelineEnabled s' = renderPipelineEnabled s
  /\ rawTemplate s' = rawTemplate s
  /\ rawStyles s' = rawStyles s
  /\ shadowProperties s' = shadowProperties s.
Proof.
  revert s; induction steps as [|st rest IH]; intros s; simpl; [auto|].
  pose proof (run_step_fields c st s) as (H1 & H2 & H3 & H4).
  destruct (run_step c st s) as [s1|e s1]; simpl in *; [|auto].
  destruct (IH s1) as (G1 & G2 & G3 & G4).
  rewrite G1, G2, G3, G4. auto.
Qed.

Lemma runRenderPipeline_fields c s :
  let s' := final (runRenderPipeline c s) in
  renderPipelineEnabled s' = renderPipelineEnabled s
  /\ rawTemplate s' = rawTemplate s
  /\ rawStyles s' = rawStyles s
  /\ shadowProperties s' = shadowProperties s.
Proof.
  unfold runRenderPipeline.
  destruct (negb (renderPipelineEnabled s)); [simpl; auto|].
  destruct (negb (truthy (rawTemplate s)) || negb (truthy (rawStyles s)));
    [simpl; auto|].
  apply (run_steps_fields c (customRenderPipeline c) (emit PipelineRun s)).
Qed.

Lemma run_steps_app c l1 l2 s :
  run_steps c (l1 ++ l2) s = bind (run_steps c l1 s) (run_steps c l2).
Proof.
  revert s; induction l1 as [|x l1 IH]; intros s; simpl; [done|].
  destruct (run_step c x s); simpl; [apply IH | done].
Qed.

(** X1: whatever the state before the call and however the call ends,
    [updateProperties] leaves the pipeline enabled: a pause requested
    earlier with [pauseRenderPipeline] does not survive it. *)
Theorem updateProperties_leaves_enabled c s properties :
  renderPipelineEnabled (final (updateProperties c properties s)) = true.
Proof.
  unfold updateProperties.
  destruct (assign c properties (pauseRenderPipeline s)) as [s1|e s1];
    [|reflexivity].
  by destruct (runRenderPipeline_fields c (resumeRenderPipeline s1)) as (-> & _).
Qed.

Lemma store_patch_other m properties k :
  k ∉ properties.*1 -> store_patch m properties !! k = m !! k.
Proof.
  revert m; induction properties as [|[k' v'] rest IH]; intros m Hk; simpl;
    [done|].
  apply not_elem_of_cons in Hk as [Hne Hk].
  unfold store_patch in *; simpl. rewrite IH by done.
  by rewrite lookup_insert_ne.
Qed.

Lemma store_patch_lookup m properties k v :
  NoDup properties.*1 -> (k, v) ∈ properties ->
  store_patch m properties !! k = Some v.
Proof.
  revert m; induction properties as [|[k' v'] rest IH]; intros m Hnd Hin.
  - by apply elem_of_nil in Hin.
  - simpl in Hnd. apply NoDup_cons in Hnd as [Hfresh Hnd].
    apply elem_of_cons in Hin as [Heq|Hin].
    + injection Heq as <- <-.
      change (store_patch (<[k:=v]> m) rest !! k = Some v).
      rewrite store_patch_other by done. by rewrite lookup_insert_eq.
    + change (store_patch (<[k':=v']> m) rest !! k = Some v). by apply IH.
Qed.

Lemma assign_intercepted c properties s :
  renderPipelineEnabled s = false ->
  (forall k, k ∈ properties.*1 -> el_props s !! k = Some InterceptedProp) ->
  assign c properties s
  = Normal (set_shadowProperties (store_patch (shadowProperties s) properties) s).
Proof.
  revert s; induction properties as [|[k v] rest IH]; intros s Hp Hall; simpl.
  - by destruct s.
  - unfold el_set. rewrite (Hall k) by (simpl; by left).
    unfold setInterceptedProperty. rewrite runRenderPipeline_paused by done.
    simpl. rewrite IH; [done | done |].
    intros k' Hk'. simpl. apply Hall. simpl. by right.
Qed.

(** X2: a patch whose keys are all intercepted properties never throws while
    it is applied, leaves the element's descriptors as they were, and puts
    every pair into the store in the order of the patch; with distinct keys
    each key then reads back the value the patch gave it. *)
Theorem updateProperties_stores_patch c s properties :
  (forall k, k ∈ properties.*1 -> el_props s !! k = Some InterceptedProp) ->
  (exists s1, assign c properties (pauseRenderPipeline s) = Normal s1
     /\ el_props s1 = el_props s)
  /\ shadowProperties (final (updateProperties c properties s))
     = store_patch (shadowProperties s) properties
  /\ (NoDup properties.*1 ->
      forall k v, (k, v) ∈ properties ->
        getInterceptedProperty k (final (updateProperties c properties s)) = v).
Proof.
  intros Hall.
  pose proof (assign_intercepted c properties (pauseRenderPipeline s) eq_refl Hall)
    as Ha. simpl in Ha.
  split; [eexists; split; [exact Ha | reflexivity]|].
  assert (Hstore : shadowProperties (final (updateProperties c properties s))
                   = store_patch (shadowProperties s) properties).
  { unfold updateProperties. rewrite Ha.
    by destruct (runRenderPipeline_fields c (resumeRenderPipeline
      (set_shadowProperties (store_patch (shadowProperties s) properties)
         (pauseRenderPipeline s)))) as (_ & _ & _ & ->). }
  split; [exact Hstore|].
  intros Hnd k v Hin. unfold getInterceptedProperty.
  by rewrite Hstore, (store_patch_lookup _ _ k v Hnd Hin).
Qed.

(** X3: the pipeline does not isolate its steps.  When a step throws, the
    pass ends there: [runRenderPipeline] throws the same exception, the
    steps before it have run, and no later step is invoked. *)
Theorem throwing_step_aborts_pass c s before st after s1 e s2 :
  renderPipelineEnabled s = true ->
  configured s = true ->
  customRenderPipeline c = before ++ st :: after ->
  run_steps c before (emit PipelineRun s) = Normal s1 ->
  run_step c st s1 = Throw e s2 ->
  runRenderPipeline c s = Throw e s2
  /\ calls (history s2) = calls (history s) ++ before ++ [st].
Proof.
  intros He Hc Hpipe Hbefore Hst.
  rewrite (runRenderPipeline_configured c s He Hc), Hpipe.
  rewrite run_steps_app, Hbefore; simpl. rewrite Hst; simpl.
  split; [done|].
  destruct (run_steps_calls c before (emit PipelineRun s)) as (d & _ & Hd & Hall).
  rewrite Hbefore in Hd; simpl in Hd. rewrite (Hall s1 Hbefore) in Hd.
  pose proof (run_step_calls c st s1) as Hcalls.
  rewrite Hst in Hcalls; simpl in Hcalls.
  rewrite Hcalls, Hd, calls_app; simpl. by rewrite app_nil_r, app_assoc.
Qed.

(** ** Interception, name by name *)

(** X4: [watchForFieldChanges] touches a name only if it is listed in
    [observedAttributes] and its descriptor passes the test: such a name
    becomes the intercepting accessor and the store takes the value the
    property had (replacing an older entry, if any); for every other name
    the descriptor and the store entry are what they were. *)
Theorem watchForFieldChanges_frame c s attrs k :
  observedAttributes (el c) = Some attrs ->
  if bool_decide (k ∈ attrs) && interceptable (el_props s !! k)
  then el_props (watchForFieldChanges c s) !! k = Some InterceptedProp
       /\ shadowProperties (watchForFieldChanges c s) !! k
          = data_value (el_props s !! k)
  else el_props (watchForFieldChanges c s) !! k = el_props s !! k
       /\ shadowProperties (watchForFieldChanges c s) !! k
          = shadowProperties s !! k.
Proof.
  unfold watchForFieldChanges. intros ->.
  destruct (bool_decide (k ∈ attrs)) eqn:Hin; simpl.
  - apply bool_decide_eq_true in Hin.
    destruct (interceptable (el_props s !! k)) eqn:Hok.
    + by apply watch_loop_intercepted.
    + apply watch_loop_skipped. by right.
  - apply bool_decide_eq_false in Hin. apply watch_loop_skipped. by left.
Qed.

(** X5: interception is invisible to readers.  Every name that is an own
    data property or an already intercepted one reads the same value after
    [watchForFieldChanges] as before. *)
Theorem watchForFieldChanges_preserves_reads c s k :
  (exists v w e cf, el_props s !! k = Some (DataProp v w e cf))
    \/ el_props s !! k = Some InterceptedProp ->
  el_get c (watchForFieldChanges c s) k = el_get c s k.
Proof.
  intros Hk. unfold watchForFieldChanges.
  destruct (observedAttributes (el c)) as [attrs|]; [|done].
  unfold el_get, getInterceptedProperty.
  destruct (decide (k ∈ attrs)) as [Hin|Hout].
  - destruct (interceptable (el_props s !! k)) eqn:Hok.
    + destruct (watch_loop_intercepted attrs s k Hin Hok) as [-> ->].
      apply interceptable_spec in Hok as [v ->]. reflexivity.
    + destruct (watch_loop_skipped attrs s k (or_intror Hok)) as [-> ->].
      destruct Hk as [(v & w & e & cf & ->) | ->]; reflexivity.
  - destruct (watch_loop_skipped attrs s k (or_introl Hout)) as [-> ->].
    destruct Hk as [(v & w & e & cf & ->) | ->]; reflexivity.
Qed.

(** ** Configuration *)

(** X16: [configureTemplate] stores the two texts exactly as given, the
    empty string included (which the constructor would have replaced by
    [null]), whatever the settings and however the immediate render ends,
    and it leaves the pause flag as it was. *)
Theorem configureTemplate_stores c t st cfg s :
  rawTemplate (final (configureTemplate c t st cfg s)) = Some t
  /\ rawStyles (final (configureTemplate c t st cfg s)) = Some st
  /\ renderPipelineEnabled (final (configureTemplate c t st cfg s))
     = renderPipelineEnabled s.
Proof.
  unfold configureTemplate.
  set (s1 := set_raw (Some t) (Some st) s).
  assert (Hw : let s2 := if default true (opt_watchForFieldChanges cfg)
                         then watchForFieldChanges c s1 else s1 in
               rawTemplate s2 = Some t /\ rawStyles s2 = Some st
               /\ renderPipelineEnabled s2 = renderPipelineEnabled s).
  { destruct (default true (opt_watchForFieldChanges cfg)); simpl; [|done].
    by destruct (watchForFieldChanges_fields c s1) as (-> & -> & -> & _). }
  destruct Hw as (H1 & H2 & H3).
  destruct (default true (opt_immediateRender cfg)); simpl; [|done].
  match goal with |- context [runRenderPipeline c ?x] =>
    destruct (runRenderPipeline_fields c x) as (-> & -> & -> & _) end.
  done.
Qed.

(** ** Widgets without hooks *)

(** X17: for a widget that defines no hook, a write to an intercepted
    property of the enabled, configured component never throws; the
    property then reads the value written, and the shadow markup is the
    style block followed by the template evaluated in a context where the
    property has that value. *)
Theorem hookless_write_rerenders h props ext t0 st0 s name v :
  no_hooks h ->
  el_props s !! name = Some InterceptedProp ->
  renderPipelineEnabled s = true ->
  configured s = true ->
  exists s' this,
    el_set (constructor h props ext t0 st0).1 name v s = Normal s'
    /\ this name = v
    /\ el_get (constructor h props ext t0 st0).1 s' name = v
    /\ innerHTML s'
       = "<style>" +:+ or_empty (rawStyles s) +:+ "</style>" +:+
         match template_literal h (template_text s) this with
         | inl text => text
         | inr _ => ""
         end.
Proof.
  intros (Hpre & Hren & Hpost) Hk He Hc.
  set (c := (constructor h props ext t0 st0).1).
  set (s1 := set_shadowProperties (<[name := v]> (shadowProperties s)) s).
  set (s2 := emit (StepCall StepDefault) (emit PipelineRun s1)).
  assert (Hpipe : customRenderPipeline c = [StepDefault])
    by (subst c; simpl; by rewrite Hpre, Hren, Hpost).
  assert (Hread : el_get c s2 name = v).
  { unfold el_get, getInterceptedProperty; simpl. rewrite Hk.
    by rewrite lookup_insert_eq. }
  exists (defaultRenderPipeline c s2), (el_get c s2).
  split.
  { unfold el_set. rewrite Hk. unfold setInterceptedProperty. fold s1.
    rewrite (runRenderPipeline_configured c s1 He Hc), Hpipe. reflexivity. }
  split; [exact Hread|]. split.
  - destruct (defaultRenderPipeline_fields c s2) as (_ & _ & _ & Hst & Hp & _).
    unfold el_get, getInterceptedProperty. rewrite Hst, Hp. simpl. rewrite Hk.
    by rewrite lookup_insert_eq.
  - rewrite defaultRenderPipeline_innerHTML.
    unfold default_markup, evaluateTemplate.
    change (template_text s2) with (template_text s).
    change (rawStyles s2) with (rawStyles s).
    change (el c) with h.
    by destruct (template_literal h (template_text s) (el_get c s2)).
Qed.

(** * The timeline chart *)

(** ** Days between two dates *)

Lemma to_double_opp n : Timeline.to_double (- n) = (- Timeline.to_double n)%Z.
Proof.
  unfold Timeline.to_double. rewrite Z.abs_opp, Z.even_opp.
  destruct (Z.abs n <=? 2 ^ 53)%Z; [done|].
  destruct (Z.even n) eqn:Hev; [done|].
  assert (Hodd : Z.odd n = true) by (by rewrite <- Z.negb_even, Hev).
  apply Z.odd_spec in Hodd as [m ->].
  pose proof (Z.div_mod (2 * m + 1 - 1) 4 ltac:(lia)) as H1.
  pose proof (Z.mod_pos_bound (2 * m + 1 - 1) 4 ltac:(lia)) as B1.
  pose proof (Z.div_mod (- (2 * m + 1) - 1) 4 ltac:(lia)) as H2.
  pose proof (Z.mod_pos_bound (- (2 * m + 1) - 1) 4 ltac:(lia)) as B2.
  destruct (Z.eqb_spec ((2 * m + 1 - 1) mod 4) 0),
           (Z.eqb_spec ((- (2 * m + 1) - 1) mod 4) 0); lia.
Qed.

Lemma to_double_zero n : Timeline.to_double n = 0%Z <-> n = 0%Z.
Proof.
  unfold Timeline.to_double.
  destruct (Z.leb_spec (Z.abs n) (2 ^ 53)) as [Hle|Hgt]; [done|].
  assert (2 ^ 53 = 9007199254740992)%Z as Hpow by reflexivity.
  destruct (Z.even n); [lia|].
  destruct ((n - 1) mod 4 =? 0)%Z; lia.
Qed.

Lemma to_double_small n :
  (Z.abs n <= 2 ^ 53)%Z -> Timeline.to_double n = n.
Proof.
  intros Hn. unfold Timeline.to_double. by rewrite (proj2 (Z.leb_le _ _) Hn).
Qed.

Lemma ceil_quotient_nonneg x :
  (0 <= x)%Z ->
  (0 <= Timeline.ceil_quotient x Timeline.ms_per_day)%Z
  /\ (Timeline.ceil_quotient x Timeline.ms_per_day = 0%Z <-> x = 0%Z).
Proof.
  intros Hx. unfold Timeline.ceil_quotient.
  change Timeline.ms_per_day with 86400000%Z.
  pose proof (Z.div_mod x 86400000 ltac:(lia)) as Hdm.
  pose proof (Z.mod_pos_bound x 86400000 ltac:(lia)) as Hm.
  pose proof (Z.div_pos x 86400000 Hx ltac:(lia)) as Hk.
  cbv zeta.
  destruct (Z.eqb_spec (x mod 86400000) 0); [lia|].
  destruct (Z.eqb_spec (x / 86400000) 0); [lia|].
  destruct (x mod 86400000 * 2 ^ (53 - Z.log2 (x / 86400000)) <=? 86400000)%Z;
    lia.
Qed.

(** Below 2^26 days the double quotient never rounds down to its integer
    part, so the result is the exact ceiling. *)
Lemma ceil_quotient_exact x :
  (0 <= x < 2 ^ 26 * Timeline.ms_per_day)%Z ->
  ((Timeline.ceil_quotient x Timeline.ms_per_day - 1) * Timeline.ms_per_day < x
   <= Timeline.ceil_quotient x Timeline.ms_per_day * Timeline.ms_per_day)%Z.
Proof.
  intros Hx. unfold Timeline.ceil_quotient.
  change Timeline.ms_per_day with 86400000%Z in *.
  pose proof (Z.div_mod x 86400000 ltac:(lia)) as Hdm.
  pose proof (Z.mod_pos_bound x 86400000 ltac:(lia)) as Hm.
  pose proof (Z.div_pos x 86400000 ltac:(lia) ltac:(lia)) as Hk.
  assert (Hk26 : (x / 86400000 < 2 ^ 26)%Z)
    by (apply Z.div_lt_upper_bound; lia).
  cbv zeta.
  destruct (Z.eqb_spec (x mod 86400000) 0); [lia|].
  destruct (Z.eqb_spec (x / 86400000) 0); [lia|].
  assert (Hlog : (Z.log2 (x / 86400000) < 26)%Z)
    by (apply Z.log2_lt_pow2; lia).
  assert (Hpow : (2 ^ 28 <= 2 ^ (53 - Z.log2 (x / 86400000)))%Z)
    by (apply Z.pow_le_mono_r; lia).
  change (2 ^ 28)%Z with 268435456%Z in Hpow.
  destruct (Z.leb_spec (x mod 86400000 * 2 ^ (53 - Z.log2 (x / 86400000)))
              86400000) as [Hle|Hgt]; [nia | lia].
Qed.

(** X6: [calculateDaysBetween] is never negative, does not depend on the
    order of the two dates and is zero only for the same instant; for dates
    less than 2^26 days apart it is the number of days rounded up exactly,
    the least number of days that covers the distance, so that two dates
    one millisecond apart are a day apart. *)
Theorem calculateDaysBetween_bounds (date1 date2 : Z) :
  (0 <= Timeline.calculateDaysBetween date1 date2)%Z
  /\ Timeline.calculateDaysBetween date2 date1
     = Timeline.calculateDaysBetween date1 date2
  /\ (Timeline.calculateDaysBetween date1 date2 = 0%Z <-> date1 = date2)
  /\ ((Z.abs (date2 - date1) < 2 ^ 26 * Timeline.ms_per_day)%Z ->
      ((Timeline.calculateDaysBetween date1 date2 - 1) * Timeline.ms_per_day
         < Z.abs (date2 - date1)
       <= Timeline.calculateDaysBetween date1 date2 * Timeline.ms_per_day)%Z).
Proof.
  unfold Timeline.calculateDaysBetween; cbv zeta.
  destruct (ceil_quotient_nonneg (Z.abs (Timeline.to_double (date2 - date1)))
              (Z.abs_nonneg _)) as [Hpos Hzero].
  split; [exact Hpos|]. split; [|split].
  - replace (date1 - date2)%Z with (- (date2 - date1))%Z by lia.
    by rewrite to_double_opp, Z.abs_opp.
  - rewrite Hzero. rewrite Z.abs_0_iff, to_double_zero. lia.
  - intros Hnear.
    assert (Hsmall : (Z.abs (date2 - date1) <= 2 ^ 53)%Z).
    { change Timeline.ms_per_day with 86400000%Z in Hnear.
      change (2 ^ 26)%Z with 67108864%Z in Hnear.
      change (2 ^ 53)%Z with 9007199254740992%Z. lia. }
    rewrite (to_double_small _ Hsmall).
    apply ceil_quotient_exact. lia.
Qed.

(** ** Sorting the nodes *)

Lemma insert_node_Permutation n l : Timeline.insert_node n l ≡ₚ n :: l.
Proof.
  induction l as [|m rest IH]; simpl; [done|].
  destruct (Timeline.dateObj n <=? Timeline.dateObj m)%Z; [done|].
  rewrite IH. apply Permutation_swap.
Qed.

Lemma insert_node_sorted n l :
  StronglySorted chronological l ->
  StronglySorted chronological (Timeline.insert_node n l).
Proof.
  induction 1 as [|m rest Hs IH Hall]; simpl.
  - repeat constructor.
  - destruct (Z.leb_spec (Timeline.dateObj n) (Timeline.dateObj m)) as [Hle|Hlt].
    + constructor; [by constructor|].
      constructor; [exact Hle|].
      eapply Forall_impl; [exact Hall|]. unfold chronological. intros; lia.
    + constructor; [exact IH|].
      rewrite insert_node_Permutation. constructor; [|exact Hall].
      unfold chronological. lia.
Qed.

Lemma sort_nodes_Permutation l : Timeline.sort_nodes l ≡ₚ l.
Proof.
  induction l as [|n l IH]; simpl; [done|].
  by rewrite insert_node_Permutation, IH.
Qed.

Lemma sort_nodes_sorted l : StronglySorted chronological (Timeline.sort_nodes l).
Proof.
  induction l as [|n l IH]; simpl; [constructor|]. by apply insert_node_sorted.
Qed.

(** X7: [prepareDisplayNodes] yields one node per item, each with the date
    of its item, in chronological order; missing [items] yield no node. *)
Theorem prepareDisplayNodes_sorted items :
  StronglySorted chronological (Timeline.prepareDisplayNodes items)
  /\ Timeline.prepareDisplayNodes items ≡ₚ Timeline.to_node <$> default [] items
  /\ length (Timeline.prepareDisplayNodes items) = length (default [] items)
  /\ Forall (fun n => Timeline.dateObj n = Timeline.date (Timeline.status n))
       (Timeline.prepareDisplayNodes items).
Proof.
  unfold Timeline.prepareDisplayNodes.
  split; [apply sort_nodes_sorted|].
  split; [apply sort_nodes_Permutation|]. split.
  - rewrite (Permutation_length (sort_nodes_Permutation _)). apply length_fmap.
  - rewrite (sort_nodes_Permutation _). apply Forall_fmap, Forall_forall. done.
Qed.

(** ** Wrapping the nodes into rows *)

Lemma mark_key nodes ab :
  node_key <$> Timeline.mark nodes ab = node_key <$> nodes.
Proof.
  unfold Timeline.mark.
  destruct (nodes !! ab.1) as [na|] eqn:Ha; [|done].
  destruct (nodes !! ab.2) as [nb|]; [|done].
  rewrite list_fmap_insert. apply list_insert_id.
  by rewrite list_lookup_fmap, Ha.
Qed.

Lemma mark_other nodes ab c :
  c <> ab.1 -> Timeline.mark nodes ab !! c = nodes !! c.
Proof.
  intros Hne. unfold Timeline.mark.
  destruct (nodes !! ab.1); [|done]. destruct (nodes !! ab.2); [|done].
  by apply list_lookup_insert_ne.
Qed.

Lemma marks_key pairs nodes :
  node_key <$> foldl Timeline.mark nodes pairs = node_key <$> nodes.
Proof.
  revert nodes; induction pairs as [|ab pairs IH]; intros nodes; simpl; [done|].
  by rewrite IH, mark_key.
Qed.

Lemma marks_other pairs nodes c :
  c ∉ pairs.*1 -> foldl Timeline.mark nodes pairs !! c = nodes !! c.
Proof.
  revert nodes; induction pairs as [|ab pairs IH]; intros nodes Hc; simpl; [done|].
  simpl in Hc. apply not_elem_of_cons in Hc as [Hne Hc].
  rewrite IH by done. by apply mark_other.
Qed.

(** The positions written by the inner loop are those that have a
    successor in the row. *)
Lemma written_has_successor (row : list nat) a :
  a ∈ (zip row (tail row)).*1 ->
  exists j, row !! j = Some a /\ is_Some (row !! S j).
Proof.
  induction row as [|x [|y rest] IH]; simpl.
  - intros H; by apply elem_of_nil in H.
  - intros H; by apply elem_of_nil in H.
  - intros H. apply elem_of_cons in H as [->|H].
    + exists 0. simpl. eauto.
    + destruct (IH H) as (j & Hj & Hs). exists (S j). eauto.
Qed.

Lemma set_days_key row nodes :
  node_key <$> Timeline.set_days row nodes = node_key <$> nodes.
Proof. apply marks_key. Qed.

Lemma set_days_length row nodes :
  length (Timeline.set_days row nodes) = length nodes.
Proof.
  rewrite <- (length_fmap node_key), set_days_key. apply length_fmap.
Qed.

Lemma set_days_outside row nodes c :
  c ∉ row -> Timeline.set_days row nodes !! c = nodes !! c.
Proof.
  intros Hc. apply marks_other. intros Hin.
  destruct (written_has_successor row c Hin) as (j & Hj & _).
  apply Hc. by eapply list_elem_of_lookup_2.
Qed.

Lemma set_days_last row nodes c :
  NoDup row -> last row = Some c ->
  Timeline.set_days row nodes !! c = nodes !! c.
Proof.
  intros Hnd Hlast. apply marks_other. intros Hin.
  destruct (written_has_successor row c Hin) as (j & Hj & [b Hb]).
  rewrite last_lookup in Hlast.
  pose proof (NoDup_lookup row _ _ c Hnd Hj Hlast) as ->.
  apply lookup_lt_Some in Hb. destruct row; simpl in *; lia.
Qed.

Lemma set_days_adjacent row nodes j a b na nb :
  NoDup row ->
  row !! j = Some a -> row !! S j = Some b ->
  nodes !! a = Some na -> nodes !! b = Some nb ->
  Timeline.set_days row nodes !! a
  = Some (Timeline.with_days na
            (Timeline.calculateDaysBetween (Timeline.dateObj na)
               (Timeline.dateObj nb))).
Proof.
  revert nodes j. induction row as [|x [|y rest] IH]; intros nodes j Hnd Ha Hb Hna Hnb.
  - done.
  - destruct j; done.
  - change (Timeline.set_days (x :: y :: rest) nodes)
      with (Timeline.set_days (y :: rest) (Timeline.mark nodes (x, y))).
    apply NoDup_cons in Hnd as [Hx Hnd].
    destruct j as [|j].
    + injection Ha as ->. injection Hb as ->.
      rewrite set_days_outside by done.
      unfold Timeline.mark; simpl. rewrite Hna, Hnb.
      apply list_lookup_insert_eq. by eapply lookup_lt_Some.
    + assert (Ha' : (y :: rest) !! j = Some a) by exact Ha.
      assert (Hb' : (y :: rest) !! S j = Some b) by exact Hb.
      assert (Hax : a <> x).
      { intros ->. apply Hx. eapply list_elem_of_lookup_2. exact Ha'. }
      assert (Hbx : b <> x).
      { intros ->. apply Hx. eapply list_elem_of_lookup_2. exact Hb'. }
      apply (IH _ j); try done; by rewrite mark_other.
Qed.

Lemma wrap_loop_done fuel n i rows nodes :
  length nodes <= i -> Timeline.wrap_loop fuel n i rows nodes = Some (rows, nodes).
Proof.
  intros Hle. destruct fuel; simpl; by rewrite (leb_correct _ _ Hle).
Qed.

Lemma wrap_loop_step fuel n i rows nodes :
  i < length nodes ->
  Timeline.wrap_loop (S fuel) n i rows nodes
  = Timeline.wrap_loop fuel n (i + n)
      (rows ++ [if Nat.odd (length rows)
                then reverse (Timeline.slice_positions i n (length nodes))
                else Timeline.slice_positions i n (length nodes)])
      (Timeline.set_days
         (if Nat.odd (length rows)
          then reverse (Timeline.slice_positions i n (length nodes))
          else Timeline.slice_positions i n (length nodes)) nodes).
Proof.
  intros Hlt. simpl. by rewrite (leb_correct_conv _ _ Hlt).
Qed.

Lemma last_elem_of {A} (l : list A) a : last l = Some a -> a ∈ l.
Proof. rewrite last_lookup. apply list_elem_of_lookup_2. Qed.

Lemma key_lookup (nodes nodes' : list Timeline.node) (a : nat) n :
  node_key <$> nodes' = node_key <$> nodes ->
  nodes !! a = Some n ->
  exists n', nodes' !! a = Some n' /\ node_key n' = node_key n.
Proof.
  intros Hkey Hn.
  assert (H : (node_key <$> nodes') !! a = Some (node_key n))
    by (by rewrite Hkey, list_lookup_fmap, Hn).
  rewrite list_lookup_fmap in H.
  destruct (nodes' !! a) as [n'|]; [|done].
  exists n'. split; [done|]. simpl in H. congruence.
Qed.

(** What the outer loop has done when it stops, started at position [i]
    with [rows] already pushed. *)
Lemma wrap_loop_spec n fuel :
  1 <= n ->
  forall i rows nodes,
    length nodes - i <= fuel ->
    exists new nodes',
      Timeline.wrap_loop fuel n i rows nodes = Some (rows ++ new, nodes')
      /\ node_key <$> nodes' = node_key <$> nodes
      /\ (forall c, c < i -> nodes' !! c = nodes !! c)
      /\ Timeline.unzigzag (length rows) new = seq i (length nodes - i)
      /\ Forall (fun row =>
            row <> [] /\ length row <= n /\ NoDup row
            /\ (forall a, a ∈ row -> i <= a < length nodes)
            /\ days_set nodes' row
            /\ (forall a, last row = Some a -> nodes' !! a = nodes !! a)) new
      /\ length nodes - i <= n * length new < length nodes - i + n.
Proof.
  intros Hn. induction fuel as [|fuel IH]; intros i rows nodes Hfuel.
  - exists [], nodes. rewrite wrap_loop_done, app_nil_r by lia.
    replace (length nodes - i) with 0 by lia. simpl.
    repeat split; try done; lia.
  - destruct (Nat.le_gt_cases (length nodes) i) as [Hle|Hlt].
    { exists [], nodes. rewrite wrap_loop_done, app_nil_r by lia.
      replace (length nodes - i) with 0 by lia. simpl.
      repeat split; try done; lia. }
    rewrite wrap_loop_step by done.
    set (row0 := Timeline.slice_positions i n (length nodes)).
    set (row := if Nat.odd (length rows) then reverse row0 else row0).
    assert (Hlen0 : length row0 = Nat.min (i + n) (length nodes) - i)
      by (unfold row0, Timeline.slice_positions; apply length_seq).
    assert (Hin : forall a, a ∈ row <-> i <= a < Nat.min (i + n) (length nodes)).
    { intros a. unfold row. destruct (Nat.odd (length rows));
        rewrite ?elem_of_reverse; unfold row0, Timeline.slice_positions;
        rewrite elem_of_seq; lia. }
    assert (Hnd : NoDup row).
    { unfold row. destruct (Nat.odd (length rows));
        rewrite ?reverse_Permutation; apply NoDup_seq. }
    assert (Hlen : length row = Nat.min (i + n) (length nodes) - i).
    { unfold row. destruct (Nat.odd (length rows));
        by rewrite ?length_reverse. }
    assert (Hzig : (if Nat.odd (length rows) then reverse row else row) = row0).
    { unfold row. destruct (Nat.odd (length rows));
        [apply reverse_involutive | done]. }
    destruct (IH (i + n) (rows ++ [row]) (Timeline.set_days row nodes))
      as (new1 & nodes' & Hrun & Hkey & Hframe & Hun & Hall & Hcount).
    { rewrite set_days_length. lia. }
    rewrite set_days_length in Hun, Hcount.
    exists (row :: new1), nodes'.
    split; [by rewrite Hrun, <- app_assoc|].
    split; [by rewrite Hkey, set_days_key|].
    split.
    { intros c Hc. rewrite Hframe by lia. apply set_days_outside.
      rewrite Hin. lia. }
    split.
    { simpl. rewrite Hzig. rewrite length_app in Hun. simpl in Hun.
      replace (length rows + 1) with (S (length rows)) in Hun by lia.
      rewrite Hun. unfold row0, Timeline.slice_positions.
      destruct (Nat.le_gt_cases (i + n) (length nodes)) as [Hfull|Hpart].
      - replace (Nat.min (i + n) (length nodes) - i) with n by lia.
        replace (length nodes - i) with (n + (length nodes - (i + n))) by lia.
        by rewrite seq_app.
      - replace (length nodes - (i + n)) with 0 by lia.
        replace (Nat.min (i + n) (length nodes) - i) with (length nodes - i) by lia.
        simpl. by rewrite app_nil_r. }
    split.
    2:{ cbn [length]. rewrite Nat.mul_succ_r.
        destruct (Nat.le_gt_cases (i + n) (length nodes)) as [Hfull|Hpart];
          [lia|].
        assert (Hnone : length new1 = 0) by nia.
        rewrite Hnone. lia. }
    constructor.
    + split; [intros Hnil; rewrite Hnil in Hlen; simpl in Hlen; lia|].
      split; [lia|]. split; [done|].
      split; [intros a Ha; apply Hin in Ha; lia|].
      split.
      * intros j a b Ha Hb.
        assert (Hai : a ∈ row) by (by eapply list_elem_of_lookup_2).
        assert (Hbi : b ∈ row) by (by eapply list_elem_of_lookup_2).
        apply Hin in Hai, Hbi.
        destruct (lookup_lt_is_Some_2 nodes a ltac:(lia)) as [na Hna].
        destruct (lookup_lt_is_Some_2 nodes b ltac:(lia)) as [nb Hnb].
        pose proof (set_days_adjacent row nodes j a b na nb Hnd Ha Hb Hna Hnb)
          as Hset.
        destruct (key_lookup nodes (Timeline.set_days row nodes) b nb
                    (set_days_key row nodes) Hnb) as (nb1 & Hnb1 & Hk).
        eexists _, nb1. rewrite !Hframe by lia.
        split; [exact Hset|]. split; [exact Hnb1|].
        simpl. unfold node_key in Hk. by injection Hk as _ _ ->.
      * intros a Ha. rewrite Hframe by (apply last_elem_of, Hin in Ha; lia).
        by apply set_days_last.
    + eapply Forall_impl; [exact Hall|].
      intros r (H1 & H2 & H3 & H4 & H5 & H6).
      split; [done|]. split; [done|]. split; [done|].
      split; [intros a Ha; apply H4 in Ha; rewrite set_days_length in Ha; lia|].
      split; [done|].
      intros a Ha. rewrite H6 by done. apply set_days_outside.
      apply last_elem_of, H4 in Ha. rewrite Hin. lia.
Qed.

Lemma preRender_run w t :
  exists rows nodes',
    Timeline.preRender true (Some w) t
    = Some (Timeline.mkChart (Timeline.items t) nodes' rows)
    /\ Timeline.wrap_loop (length (Timeline.prepareDisplayNodes (Timeline.items t)))
         (Timeline.nodesPerRow w) 0 []
         (Timeline.prepareDisplayNodes (Timeline.items t))
       = Some (rows, nodes').
Proof.
  assert (Hn : 1 <= Timeline.nodesPerRow w)
    by (unfold Timeline.nodesPerRow; lia).
  destruct (wrap_loop_spec (Timeline.nodesPerRow w)
              (length (Timeline.prepareDisplayNodes (Timeline.items t))) Hn
              0 [] (Timeline.prepareDisplayNodes (Timeline.items t)))
    as (new & nodes' & Hrun & _); [lia|].
  exists new, nodes'. unfold Timeline.preRender. by rewrite Hrun.
Qed.

(** X8: [preRender] always comes to an end, because a row takes at least
    one node whatever the width of the container.  The rows it pushes are
    the consecutive slices of [displayNodes], every second one reversed:
    read back in order they list each position exactly once; no row is
    empty or longer than [nodesPerRow], and there are just enough rows. *)
Theorem timeline_preRender_rows w t :
  exists t',
    Timeline.preRender true (Some w) t = Some t'
    /\ 1 <= Timeline.nodesPerRow w
    /\ Timeline.unzigzag 0 (Timeline.wrappedRows t')
       = seq 0 (length (Timeline.displayNodes t'))
    /\ Forall (fun row => row <> [] /\ length row <= Timeline.nodesPerRow w)
         (Timeline.wrappedRows t')
    /\ length (Timeline.displayNodes t')
       <= Timeline.nodesPerRow w * length (Timeline.wrappedRows t')
       < length (Timeline.displayNodes t') + Timeline.nodesPerRow w.
Proof.
  assert (Hn : 1 <= Timeline.nodesPerRow w)
    by (unfold Timeline.nodesPerRow; lia).
  destruct (preRender_run w t) as (rows & nodes' & Hpre & Hloop).
  destruct (wrap_loop_spec (Timeline.nodesPerRow w)
              (length (Timeline.prepareDisplayNodes (Timeline.items t))) Hn
              0 [] (Timeline.prepareDisplayNodes (Timeline.items t)))
    as (new & nodes2 & Hrun & Hkey & _ & Hun & Hall & Hcount); [lia|].
  rewrite Hloop in Hrun. injection Hrun as -> ->.
  assert (Hlen : length nodes2
                 = length (Timeline.prepareDisplayNodes (Timeline.items t))).
  { by rewrite <- (length_fmap node_key), Hkey, length_fmap. }
  eexists. split; [exact Hpre|]. simpl. rewrite Hlen.
  rewrite Nat.sub_0_r in Hun, Hcount.
  split; [done|]. split; [exact Hun|]. split; [|exact Hcount].
  eapply Forall_impl; [exact Hall|]. intros r (H1 & H2 & _). done.
Qed.

Lemma chronological_key (l l' : list Timeline.node) :
  node_key <$> l' = node_key <$> l ->
  StronglySorted chronological l -> StronglySorted chronological l'.
Proof.
  intros Hkey Hs. revert l' Hkey.
  induction Hs as [|n l Hs IH Hall]; intros [|n' l'] Hkey; try done.
  - constructor.
  - rewrite !fmap_cons in Hkey.
    assert (Hn : node_key n' = node_key n) by congruence.
    assert (Hl : node_key <$> l' = node_key <$> l) by congruence.
    constructor; [by apply IH|].
    assert (Hd : Timeline.dateObj n' = Timeline.dateObj n)
      by (unfold node_key in Hn; congruence).
    apply Forall_forall. intros m' Hm'.
    apply list_elem_of_lookup in Hm' as [a Ha].
    destruct (key_lookup l' l a m' (eq_sym Hl) Ha) as (m & Hm & Hk).
    rewrite Forall_forall in Hall.
    pose proof (Hall m (list_elem_of_lookup_2 _ _ _ Hm)) as Hle.
    unfold chronological in *. rewrite Hd.
    replace (Timeline.dateObj m') with (Timeline.dateObj m)
      by (unfold node_key in Hk; congruence).
    exact Hle.
Qed.

(** X9: the only thing [preRender] changes in the nodes that
    [prepareDisplayNodes] has built is [daysTillNext]: labels and dates are
    those of the sorted items, in the same chronological order, and the
    items themselves are left alone. *)
Theorem timeline_preRender_nodes w t :
  exists t',
    Timeline.preRender true (Some w) t = Some t'
    /\ Timeline.items t' = Timeline.items t
    /\ node_key <$> Timeline.displayNodes t'
       = node_key <$> Timeline.prepareDisplayNodes (Timeline.items t)
    /\ StronglySorted chronological (Timeline.displayNodes t').
Proof.
  assert (Hn : 1 <= Timeline.nodesPerRow w)
    by (unfold Timeline.nodesPerRow; lia).
  destruct (preRender_run w t) as (rows & nodes' & Hpre & Hloop).
  destruct (wrap_loop_spec (Timeline.nodesPerRow w)
              (length (Timeline.prepareDisplayNodes (Timeline.items t))) Hn
              0 [] (Timeline.prepareDisplayNodes (Timeline.items t)))
    as (new & nodes2 & Hrun & Hkey & _); [lia|].
  rewrite Hloop in Hrun. injection Hrun as -> ->.
  eexists. split; [exact Hpre|]. simpl.
  split; [done|]. split; [exact Hkey|].
  eapply chronological_key; [exact Hkey|].
  apply sort_nodes_sorted.
Qed.

(** X10: after [preRender], in every row each node but the last carries in
    [daysTillNext] the days between its date and the date of the node shown
    after it, and the last node of a row is exactly as
    [prepareDisplayNodes] built it, with the [daysTillNext] of its item. *)
Theorem timeline_preRender_days w t :
  exists t',
    Timeline.preRender true (Some w) t = Some t'
    /\ Forall (days_set (Timeline.displayNodes t')) (Timeline.wrappedRows t')
    /\ Forall (fun row => forall a, last row = Some a ->
           Timeline.displayNodes t' !! a
           = Timeline.prepareDisplayNodes (Timeline.items t) !! a)
         (Timeline.wrappedRows t').
Proof.
  assert (Hn : 1 <= Timeline.nodesPerRow w)
    by (unfold Timeline.nodesPerRow; lia).
  destruct (preRender_run w t) as (rows & nodes' & Hpre & Hloop).
  destruct (wrap_loop_spec (Timeline.nodesPerRow w)
              (length (Timeline.prepareDisplayNodes (Timeline.items t))) Hn
              0 [] (Timeline.prepareDisplayNodes (Timeline.items t)))
    as (new & nodes2 & Hrun & _ & _ & _ & Hall & _); [lia|].
  rewrite Hloop in Hrun. injection Hrun as -> ->.
  eexists. split; [exact Hpre|]. simpl.
  split; (eapply Forall_impl; [exact Hall|]);
    intros r (_ & _ & _ & _ & H5 & H6); done.
Qed.

(** * The donut chart: colours *)

(** A channel value that two hexadecimal digits can hold. *)
Lemma byte_two_hex (n : Z) :
  (0 <= n <= 255)%Z ->
  exists a b,
    Donut.two_hex (Some n) = String a (String b EmptyString)
    /\ Donut.parseInt16 (String a (String b EmptyString)) = Some n
    /\ a <> "#"%char.
Proof.
  intros Hn.
  set (check := fun n : Z =>
         match Donut.two_hex (Some n) with
         | String a (String b EmptyString) =>
             bool_decide
               (Donut.parseInt16 (String a (String b EmptyString)) = Some n)
             && negb (Ascii.eqb a "#")
         | _ => false
         end).
  assert (Hall : forallb check (seqZ 0 256) = true)
    by (vm_compute; reflexivity).
  rewrite forallb_forall in Hall.
  specialize (Hall n ltac:(apply list_elem_of_In, elem_of_seqZ; lia)).
  unfold check in Hall.
  destruct (Donut.two_hex (Some n)) as [|a [|b [|? ?]]]; try done.
  apply andb_true_iff in Hall as [Hp Hh].
  apply bool_decide_eq_true in Hp.
  exists a, b. split; [done|]. split; [done|].
  intros ->. discriminate.
Qed.

Lemma darken_byte i v :
  (0 <= i)%Z -> (0 <= v <= 255)%Z -> (0 <= Z.max 0 (v - i) <= 255)%Z.
Proof. lia. Qed.

Lemma darkened_reads_back hex i r g b :
  (0 <= i)%Z ->
  Donut.channel 0 (Donut.prepare hex) = Some r -> (0 <= r <= 255)%Z ->
  Donut.channel 1 (Donut.prepare hex) = Some g -> (0 <= g <= 255)%Z ->
  Donut.channel 2 (Donut.prepare hex) = Some b -> (0 <= b <= 255)%Z ->
  exists a1 b1 a2 b2 a3 b3,
    Donut.darkenColor hex (Some i)
    = String "#" (String a1 (String b1 (String a2 (String b2
        (String a3 (String b3 EmptyString))))))
    /\ Donut.parseInt16 (String a1 (String b1 EmptyString))
       = Some (Z.max 0 (r - i))
    /\ Donut.parseInt16 (String a2 (String b2 EmptyString))
       = Some (Z.max 0 (g - i))
    /\ Donut.parseInt16 (String a3 (String b3 EmptyString))
       = Some (Z.max 0 (b - i)).
Proof.
  intros Hi Hr Hrb Hg Hgb Hb Hbb.
  unfold Donut.darkenColor. cbv zeta. rewrite Hr, Hg, Hb.
  change (default 30%Z (Some i)) with i. cbn [Donut.darken].
  destruct (byte_two_hex _ (darken_byte i r Hi Hrb)) as (a1 & b1 & -> & P1 & _).
  destruct (byte_two_hex _ (darken_byte i g Hi Hgb)) as (a2 & b2 & -> & P2 & _).
  destruct (byte_two_hex _ (darken_byte i b Hi Hbb)) as (a3 & b3 & -> & P3 & _).
  exists a1, b1, a2, b2, a3, b3. done.
Qed.

(** X11: darkening a colour whose three channels read as values from 0 to
    255 with an intensity that is not negative gives a colour that reads
    back as those values less the intensity, floored at 0: the result is
    again a colour the function accepts. *)
Theorem darkenColor_round_trip hex i r g b :
  (0 <= i)%Z ->
  Donut.channel 0 (Donut.prepare hex) = Some r -> (0 <= r <= 255)%Z ->
  Donut.channel 1 (Donut.prepare hex) = Some g -> (0 <= g <= 255)%Z ->
  Donut.channel 2 (Donut.prepare hex) = Some b -> (0 <= b <= 255)%Z ->
  Donut.channel 0 (Donut.prepare (Donut.darkenColor hex (Some i)))
    = Some (Z.max 0 (r - i))
  /\ Donut.channel 1 (Donut.prepare (Donut.darkenColor hex (Some i)))
     = Some (Z.max 0 (g - i))
  /\ Donut.channel 2 (Donut.prepare (Donut.darkenColor hex (Some i)))
     = Some (Z.max 0 (b - i))
  /\ String.length (Donut.darkenColor hex (Some i)) = 7.
Proof.
  intros Hi Hr Hrb Hg Hgb Hb Hbb.
  destruct (darkened_reads_back hex i r g b Hi Hr Hrb Hg Hgb Hb Hbb)
    as (a1 & b1 & a2 & b2 & a3 & b3 & -> & P1 & P2 & P3).
  unfold Donut.prepare, Donut.channel.
  change (Donut.expand (Donut.remove_hash
            (String "#" (String a1 (String b1 (String a2 (String b2
               (String a3 (String b3 EmptyString)))))))))
    with (String a1 (String b1 (String a2 (String b2 (String a3 (String b3 "")))))).
  change (String.substring (2 * 0) 2
            (String a1 (String b1 (String a2 (String b2 (String a3 (String b3 "")))))))
    with (String a1 (String b1 "")).
  change (String.substring (2 * 1) 2
            (String a1 (String b1 (String a2 (String b2 (String a3 (String b3 "")))))))
    with (String a2 (String b2 "")).
  change (String.substring (2 * 2) 2
            (String a1 (String b1 (String a2 (String b2 (String a3 (String b3 "")))))))
    with (String a3 (String b3 "")).
  rewrite P1, P2, P3. done.
Qed.

Lemma darkened_channels hex i r g b :
  (0 <= i)%Z ->
  Donut.channel 0 (Donut.prepare hex) = Some r -> (0 <= r <= 255)%Z ->
  Donut.channel 1 (Donut.prepare hex) = Some g -> (0 <= g <= 255)%Z ->
  Donut.channel 2 (Donut.prepare hex) = Some b -> (0 <= b <= 255)%Z ->
  Donut.channel 0 (Donut.prepare (Donut.darkenColor hex (Some i)))
    = Some (Z.max 0 (r - i))
  /\ Donut.channel 1 (Donut.prepare (Donut.darkenColor hex (Some i)))
     = Some (Z.max 0 (g - i))
  /\ Donut.channel 2 (Donut.prepare (Donut.darkenColor hex (Some i)))
     = Some (Z.max 0 (b - i)).
Proof.
  intros Hi Hr Hrb Hg Hgb Hb Hbb.
  destruct (darkened_reads_back hex i r g b Hi Hr Hrb Hg Hgb Hb Hbb)
    as (a1 & b1 & a2 & b2 & a3 & b3 & -> & P1 & P2 & P3).
  repeat split; [exact P1 | exact P2 | exact P3].
Qed.

(** X12: darkening twice is darkening once by the sum of the intensities. *)
Theorem darkenColor_compose hex i j r g b :
  (0 <= i)%Z -> (0 <= j)%Z ->
  Donut.channel 0 (Donut.prepare hex) = Some r -> (0 <= r <= 255)%Z ->
  Donut.channel 1 (Donut.prepare hex) = Some g -> (0 <= g <= 255)%Z ->
  Donut.channel 2 (Donut.prepare hex) = Some b -> (0 <= b <= 255)%Z ->
  Donut.darkenColor (Donut.darkenColor hex (Some i)) (Some j)
  = Donut.darkenColor hex (Some (i + j)%Z).
Proof.
  intros Hi Hj Hr Hrb Hg Hgb Hb Hbb.
  destruct (darkened_channels hex i r g b Hi Hr Hrb Hg Hgb Hb Hbb)
    as (Hr' & Hg' & Hb').
  unfold Donut.darkenColor at 1. cbv zeta. rewrite Hr', Hg', Hb'.
  unfold Donut.darkenColor. cbv zeta. rewrite Hr, Hg, Hb.
  change (default 30%Z (Some j)) with j.
  change (default 30%Z (Some (i + j)%Z)) with (i + j)%Z. cbn [Donut.darken].
  replace (Z.max 0 (Z.max 0 (r - i) - j)) with (Z.max 0 (r - (i + j))) by lia.
  replace (Z.max 0 (Z.max 0 (g - i) - j)) with (Z.max 0 (g - (i + j))) by lia.
  replace (Z.max 0 (Z.max 0 (b - i) - j)) with (Z.max 0 (b - (i + j))) by lia.
  reflexivity.
Qed.

Lemma doubled_digit (x : Ascii.ascii) d :
  Donut.hex_digit x = Some d ->
  Donut.parseInt16 (String x (String x EmptyString)) = Some (17 * d)%Z
  /\ (0 <= d <= 15)%Z.
Proof.
  destruct x as [[] [] [] [] [] [] [] []]; intros H; vm_compute in H;
    try discriminate H; injection H as <-;
    (split; [vm_compute; reflexivity | lia]).
Qed.

(** X13: in the short form [#xyz] each hexadecimal digit stands for the
    channel of value 17 times the digit (the digit doubled), and the colour
    is darkened from those values. *)
Theorem darkenColor_short_form (x y z : Ascii.ascii) dx dy dz i :
  (0 <= i)%Z ->
  Donut.hex_digit x = Some dx ->
  Donut.hex_digit y = Some dy ->
  Donut.hex_digit z = Some dz ->
  Donut.channel 0 (Donut.prepare (Donut.darkenColor
      (String "#" (String x (String y (String z EmptyString)))) (Some i)))
    = Some (Z.max 0 (17 * dx - i))
  /\ Donut.channel 1 (Donut.prepare (Donut.darkenColor
      (String "#" (String x (String y (String z EmptyString)))) (Some i)))
     = Some (Z.max 0 (17 * dy - i))
  /\ Donut.channel 2 (Donut.prepare (Donut.darkenColor
      (String "#" (String x (String y (String z EmptyString)))) (Some i)))
     = Some (Z.max 0 (17 * dz - i)).
Proof.
  intros Hi Hx Hy Hz.
  destruct (doubled_digit x dx Hx) as [Px Bx].
  destruct (doubled_digit y dy Hy) as [Py By].
  destruct (doubled_digit z dz Hz) as [Pz Bz].
  destruct (darkened_channels
              (String "#" (String x (String y (String z EmptyString)))) i
              (17 * dx) (17 * dy) (17 * dz) Hi) as (H1 & H2 & H3);
    try lia; try done.
Qed.

(** X14: a colour that is not written in hexadecimal (a colour name, an
    [rgb(...)] form) is not rejected: when the text does not start with a
    hexadecimal digit, [#], white space or a sign, the red channel is [NaN]
    and the result starts with [#NaN], which is not a colour. *)
Theorem darkenColor_not_hexadecimal a rest intensity :
  a <> "#"%char -> a <> "-"%char -> a <> "+"%char ->
  Donut.is_white a = false ->
  Donut.hex_digit a = None ->
  Donut.channel 0 (Donut.prepare (String a rest)) = None
  /\ exists tail,
       Donut.darkenColor (String a rest) intensity = "#NaN" +:+ tail.
Proof.
  intros Hhash Hminus Hplus Hw Hd.
  assert (Ha : forall c, Ascii.eqb a c = false <-> a <> c).
  { intros c. destruct (Ascii.eqb_spec a c); split; congruence. }
  assert (Hparse : forall s, Donut.parseInt16 (String a s) = None).
  { intros s. unfold Donut.parseInt16. cbn [Donut.trim_start]. rewrite Hw.
    cbn [Donut.strip_sign].
    rewrite (proj2 (Ha "-"%char) Hminus), (proj2 (Ha "+"%char) Hplus).
    assert (H0 : Ascii.eqb a "0" = false).
    { apply Ha. intros ->. vm_compute in Hd. discriminate. }
    unfold Donut.strip_0x. destruct s; rewrite ?H0; cbn; by rewrite Hd. }
  assert (Hch : Donut.channel 0 (Donut.prepare (String a rest)) = None).
  { unfold Donut.prepare, Donut.channel. cbn [Donut.remove_hash].
    rewrite (proj2 (Ha "#"%char) Hhash).
    destruct (Donut.remove_hash rest) as [|y [|z [|? ?]]]; cbn; apply Hparse. }
  split; [exact Hch|].
  unfold Donut.darkenColor. cbv zeta. rewrite Hch. cbn [Donut.darken].
  eexists. change (Donut.two_hex None) with "NaN". reflexivity.
Qed.

(** X15: every segment gets a colour.  An item's own colour is kept; an
    item without one takes a palette entry, whatever its rank, and every
    palette entry is a colour [darkenColor] accepts: its three channels
    read as values from 0 to 255. *)
Theorem segment_color_defined color idx :
  exists c, Donut.segment_color color idx = Some c
    /\ c <> ""
    /\ (truthy color = true -> color = Some c)
    /\ (truthy color = false ->
        c ∈ Donut.colors
        /\ forall k, k < 3 ->
             exists v, Donut.channel k (Donut.prepare c) = Some v
                       /\ (0 <= v <= 255)%Z).
Proof.
  unfold Donut.segment_color.
  destruct (truthy color) eqn:Ht.
  - destruct color as [c|]; [|done]. exists c.
    split; [done|]. split; [|by split].
    intros ->. done.
  - assert (Hidx : idx mod length Donut.colors < length Donut.colors)
      by (apply Nat.mod_upper_bound; done).
    destruct (lookup_lt_is_Some_2 _ _ Hidx) as [c Hc].
    assert (Hin : c ∈ Donut.colors) by (by eapply list_elem_of_lookup_2).
    assert (Hall : Forall (fun c => c <> "" /\
              Forall (fun k => exists v,
                  Donut.channel k (Donut.prepare c) = Some v
                  /\ (0 <= v <= 255)%Z) [0; 1; 2]) Donut.colors).
    { repeat constructor; try done; eexists; (split; [vm_compute; reflexivity|lia]). }
    rewrite Forall_forall in Hall. destruct (Hall c Hin) as [Hne Hk].
    exists c. split; [exact Hc|]. split; [exact Hne|]. split; [done|].
    intros _. split; [exact Hin|].
    intros k Hlt. rewrite Forall_forall in Hk. apply Hk.
    destruct k as [|[|[|k]]]; rewrite ?elem_of_cons; auto. lia.
Qed.

(** * The further theorems at sample inputs *)

Lemma updateProperties_stores_patch_witness :
  (forall k, k ∈ [("items", VStr "[1]"); ("width", VNum 3)].*1 ->
     el_props donut_ready !! k = Some InterceptedProp)
  /\ getInterceptedProperty "width"
       (final (updateProperties donut_c
                 [("items", VStr "[1]"); ("width", VNum 3)] donut_ready))
     = VNum 3.
Proof.
  assert (Hall : forall k, k ∈ [("items", VStr "[1]"); ("width", VNum 3)].*1 ->
                   el_props donut_ready !! k = Some InterceptedProp).
  { intros k Hk. simpl in Hk. rewrite !elem_of_cons, elem_of_nil in Hk.
    destruct Hk as [->|[->|[]]]; vm_compute; reflexivity. }
  split; [exact Hall|].
  destruct (updateProperties_stores_patch donut_c donut_ready
              [("items", VStr "[1]"); ("width", VNum 3)] Hall) as (_ & _ & Hread).
  apply Hread.
  - simpl. repeat constructor; rewrite ?elem_of_cons, ?elem_of_nil;
      intros H; decompose [or] H; discriminate || done.
  - rewrite !elem_of_cons. auto.
Defined.

Lemma throwing_step_aborts_pass_witness :
  renderPipelineEnabled Faulty.widget_new = true
  /\ configured Faulty.widget_new = true
  /\ customRenderPipeline Faulty.widget_c = [StepDefault] ++ StepPostRender :: []
  /\ runRenderPipeline Faulty.widget_c Faulty.widget_new
     = Throw (HostError "postRender failed")
         (final (run_step Faulty.widget_c StepPostRender
                   (final (run_steps Faulty.widget_c [StepDefault]
                             (emit PipelineRun Faulty.widget_new))))).
Proof.
  split; [reflexivity|]. split; [reflexivity|]. split; [reflexivity|].
  apply (throwing_step_aborts_pass Faulty.widget_c Faulty.widget_new
           [StepDefault] StepPostRender []
           (final (run_steps Faulty.widget_c [StepDefault]
                     (emit PipelineRun Faulty.widget_new)))
           (HostError "postRender failed")
           (final (run_step Faulty.widget_c StepPostRender
                     (final (run_steps Faulty.widget_c [StepDefault]
                               (emit PipelineRun Faulty.widget_new))))));
    vm_compute; reflexivity.
Defined.

Lemma watchForFieldChanges_frame_witness :
  observedAttributes (el donut_c)
    = Some ["items"; "width"; "height"; "border-color"]
  /\ el_props (watchForFieldChanges donut_c donut_new) !! "width"
     = Some InterceptedProp
  /\ shadowProperties (watchForFieldChanges donut_c donut_new) !! "width"
     = Some (VNum 400).
Proof.
  split; [reflexivity|].
  exact (watchForFieldChanges_frame donut_c donut_new
           ["items"; "width"; "height"; "border-color"] "width" eq_refl).
Defined.

Lemma watchForFieldChanges_preserves_reads_witness :
  (exists v w e cf, el_props hello_new !! "name" = Some (DataProp v w e cf))
  /\ el_get hello_c (watchForFieldChanges hello_c hello_new) "name"
     = el_get hello_c hello_new "name".
Proof.
  assert (H : exists v w e cf,
              el_props hello_new !! "name" = Some (DataProp v w e cf))
    by (exists (VStr "World"), true, true, true; vm_compute; reflexivity).
  split; [exact H|].
  apply (watchForFieldChanges_preserves_reads hello_c hello_new "name").
  left. exact H.
Defined.

Lemma hello_no_hooks : no_hooks hello_world.
Proof. repeat split. Defined.

Lemma hookless_write_rerenders_witness :
  el_props hello_ready !! "name" = Some InterceptedProp
  /\ renderPipelineEnabled hello_ready = true
  /\ configured hello_ready = true
  /\ exists s' this,
       el_set hello_c "name" (VStr "Ada") hello_ready = Normal s'
       /\ this "name" = VStr "Ada"
       /\ el_get hello_c s' "name" = VStr "Ada"
       /\ innerHTML s'
          = "<style>" +:+ or_empty (rawStyles hello_ready) +:+ "</style>" +:+
            match template_literal hello_world (template_text hello_ready) this with
            | inl text => text
            | inr _ => ""
            end.
Proof.
  assert (Hk : el_props hello_ready !! "name" = Some InterceptedProp)
    by (vm_compute; reflexivity).
  assert (He : renderPipelineEnabled hello_ready = true)
    by (vm_compute; reflexivity).
  assert (Hc : configured hello_ready = true) by (vm_compute; reflexivity).
  split; [exact Hk|]. split; [exact He|]. split; [exact Hc|].
  exact (hookless_write_rerenders hello_world hello_props true None None
           hello_ready "name" (VStr "Ada") hello_no_hooks Hk He Hc).
Defined.

Lemma darkenColor_round_trip_witness :
  Donut.channel 0 (Donut.prepare "#3498db") = Some 52%Z
  /\ Donut.channel 1 (Donut.prepare "#3498db") = Some 152%Z
  /\ Donut.channel 2 (Donut.prepare "#3498db") = Some 219%Z
  /\ Donut.channel 0 (Donut.prepare (Donut.darkenColor "#3498db" (Some 35%Z)))
     = Some (Z.max 0 (52 - 35)).
Proof.
  split; [reflexivity|]. split; [reflexivity|]. split; [reflexivity|].
  apply (darkenColor_round_trip "#3498db" 35 52 152 219);
    first [reflexivity | lia].
Defined.

Lemma darkenColor_compose_witness :
  Donut.darkenColor (Donut.darkenColor "#3498db" (Some 35%Z)) (Some 10%Z)
  = Donut.darkenColor "#3498db" (Some (35 + 10)%Z).
Proof.
  apply (darkenColor_compose "#3498db" 35 10 52 152 219);
    first [reflexivity | lia].
Defined.

Lemma darkenColor_short_form_witness :
  Donut.hex_digit "a" = Some 10%Z
  /\ Donut.hex_digit "B" = Some 11%Z
  /\ Donut.hex_digit "0" = Some 0%Z
  /\ Donut.channel 0 (Donut.prepare (Donut.darkenColor "#aB0" (Some 30%Z)))
     = Some (Z.max 0 (17 * 10 - 30)).
Proof.
  split; [reflexivity|]. split; [reflexivity|]. split; [reflexivity|].
  apply (darkenColor_short_form "a" "B" "0" 10 11 0 30);
    first [reflexivity | lia].
Defined.

Lemma darkenColor_not_hexadecimal_witness :
  Donut.is_white "r" = false
  /\ Donut.hex_digit "r" = None
  /\ Donut.channel 0 (Donut.prepare "red") = None.
Proof.
  split; [reflexivity|]. split; [reflexivity|].
  apply (darkenColor_not_hexadecimal "r" "ed" None);
    first [reflexivity | discriminate].
Defined.

(** * A patch that fails half-way *)

Lemma assign_app c p1 p2 s :
  assign c (p1 ++ p2) s = bind (assign c p1 s) (assign c p2).
Proof.
  revert s; induction p1 as [|[k v] p1 IH]; intros s; simpl; [done|].
  destruct (el_set c k v s); simpl; [apply IH | done].
Qed.

Lemma el_set_throw_store c name v s e s' :
  renderPipelineEnabled s = false ->
  el_set c name v s = Throw e s' ->
  shadowProperties s' = shadowProperties s.
Proof.
  intros Hp. unfold el_set, call_setter.
  destruct (el_props s !! name) as [[? w ? ?| |? ?]|].
  - destruct w; [done|]. by intros [= _ <-].
  - unfold setInterceptedProperty. by rewrite runRenderPipeline_paused.
  - destruct (user_setter (el c) name) as [f|]; [|by intros [= _ <-]].
    intros H. destruct (call_host_fields (f v) s) as (_ & _ & _ & Hst & _).
    by rewrite H in Hst.
  - destruct (user_setter (el c) name) as [f|].
    + intros H. destruct (call_host_fields (f v) s) as (_ & _ & _ & Hst & _).
      by rewrite H in Hst.
    + destruct (el_extensible s); [done|]. by intros [= _ <-].
Qed.

(** X18: [updateProperties] does not roll back.  When the patch writes
    intercepted properties and then reaches a key whose write throws, the
    exception leaves the call, the pipeline is enabled again, the keys
    after the failing one are never written, and the values written before
    it stay in the store. *)
Theorem updateProperties_no_rollback c s written name v rest e s2 :
  (forall k, k ∈ written.*1 -> el_props s !! k = Some InterceptedProp) ->
  el_set c name v
    (set_shadowProperties (store_patch (shadowProperties s) written)
       (pauseRenderPipeline s)) = Throw e s2 ->
  updateProperties c (written ++ (name, v) :: rest) s
  = Throw e (resumeRenderPipeline s2)
  /\ shadowProperties (final (updateProperties c (written ++ (name, v) :: rest) s))
     = store_patch (shadowProperties s) written
  /\ history (final (updateProperties c (written ++ (name, v) :: rest) s))
     = history s.
Proof.
  intros Hall Hthrow.
  pose proof (assign_intercepted c written (pauseRenderPipeline s) eq_refl Hall)
    as Ha. simpl in Ha.
  assert (Hassign : assign c (written ++ (name, v) :: rest) (pauseRenderPipeline s)
                    = Throw e s2).
  { rewrite assign_app, Ha. simpl. by rewrite Hthrow. }
  pose proof (assign_paused c (written ++ (name, v) :: rest)
                (pauseRenderPipeline s) eq_refl) as Hp.
  rewrite Hassign in Hp. destruct Hp as (_ & _ & _ & Hh). simpl in Hh.
  unfold updateProperties. rewrite Hassign. simpl.
  split; [done|]. split; [|exact Hh].
  by rewrite (el_set_throw_store c name v
                (set_shadowProperties (store_patch (shadowProperties s) written)
                   (pauseRenderPipeline s)) e s2 eq_refl Hthrow).
Qed.

Lemma updateProperties_no_rollback_witness :
  (forall k, k ∈ [("width", VNum 3)].*1 ->
     el_props donut_ready !! k = Some InterceptedProp)
  /\ updateProperties donut_c
       ([("width", VNum 3)] ++ ("shadow", VNum 0) :: [("height", VNum 5)])
       donut_ready
     = Throw TypeError
         (resumeRenderPipeline
            (final (el_set donut_c "shadow" (VNum 0)
                      (set_shadowProperties
                         (store_patch (shadowProperties donut_ready)
                            [("width", VNum 3)])
                         (pauseRenderPipeline donut_ready))))).
Proof.
  assert (Hall : forall k, k ∈ [("width", VNum 3)].*1 ->
                   el_props donut_ready !! k = Some InterceptedProp).
  { intros k Hk. simpl in Hk. rewrite !elem_of_cons, elem_of_nil in Hk.
    destruct Hk as [->|[]]; vm_compute; reflexivity. }
  split; [exact Hall|].
  apply (updateProperties_no_rollback donut_c donut_ready [("width", VNum 3)]
           "shadow" (VNum 0) [("height", VNum 5)] TypeError _ Hall).
  vm_compute; reflexivity.
Defined.

(** Two dates a day and a millisecond apart are two days apart. *)
Lemma calculateDaysBetween_bounds_witness :
  (Z.abs (86400001 - 0) < 2 ^ 26 * Timeline.ms_per_day)%Z
  /\ Timeline.calculateDaysBetween 0 86400001 = 2%Z.
Proof.
  assert (Hnear : (Z.abs (86400001 - 0) < 2 ^ 26 * Timeline.ms_per_day)%Z)
    by (vm_compute; reflexivity).
  split; [exact Hnear|].
  destruct (calculateDaysBetween_bounds 0 86400001) as (Hpos & _ & _ & Hexact).
  specialize (Hexact Hnear).
  change Timeline.ms_per_day with 86400000%Z in Hexact.
  change (Z.abs (86400001 - 0)) with 86400001%Z in Hexact. lia.
Defined.

(** At the far end of the range of dates the doubles round: from the first
    representable date, 199999999 days and a millisecond count as 199999999
    days, the millisecond being lost in the subtraction. *)
Example calculateDaysBetween_far_apart :
  Timeline.calculateDaysBetween (-8640000000000000)
    (-8640000000000000 + 199999999 * Timeline.ms_per_day + 1) = 199999999%Z.
Proof. vm_compute. reflexivity. Qed.
